(** * A three-router layer-3 topology: shallow embedding and verification

    Embedding of [layer3_network_code.py]: the router node class
    [LinuxRouter], the topology declaration [NetworkTopo.build] and the
    orchestration routine [run] with the script's [__main__] block. *)

From Stdlib Require Import String Ascii List ZArith Bool Lia DecimalString.
Import ListNotations.
Local Open Scope string_scope.
Local Open Scope list_scope.

(** ** IPv4 address literals

    The source writes every address as a string literal such as
    ['20.10.172.130/26'].  Literals are kept as strings in the topology and
    decoded here into a 32-bit number and a prefix length. *)

Module IPv4.

Definition digit_of (c : ascii) : option Z :=
  let n := Z.of_nat (nat_of_ascii c) in
  if andb (48 <=? n)%Z (n <=? 57)%Z then Some (n - 48)%Z else None.

Fixpoint parse_dec_from (acc : Z) (s : string) : option Z :=
  match s with
  | EmptyString => Some acc
  | String c rest =>
      match digit_of c with
      | Some d => parse_dec_from (acc * 10 + d)%Z rest
      | None => None
      end
  end.

(** A non-empty run of decimal digits. *)
Definition parse_dec (s : string) : option Z :=
  match s with
  | EmptyString => None
  | _ => parse_dec_from 0%Z s
  end.

(** [split_on sep s]: the fields of [s] separated by [sep]. *)
Fixpoint split_on (sep : ascii) (s : string) : list string :=
  match s with
  | EmptyString => [EmptyString]
  | String c rest =>
      if Ascii.eqb c sep then EmptyString :: split_on sep rest
      else match split_on sep rest with
           | [] => [String c EmptyString]
           | f :: fs => String c f :: fs
           end
  end.

Definition octet (s : string) : option Z :=
  match parse_dec s with
  | Some n => if (n <=? 255)%Z then Some n else None
  | None => None
  end.

(** Dotted quad to a 32-bit number. *)
Definition parse_addr (s : string) : option Z :=
  match split_on "." s with
  | [a; b; c; d] =>
      match octet a, octet b, octet c, octet d with
      | Some a, Some b, Some c, Some d =>
          Some (Z.lor (Z.shiftl a 24)
                 (Z.lor (Z.shiftl b 16) (Z.lor (Z.shiftl c 8) d)))
      | _, _, _, _ => None
      end
  | _ => None
  end.

(** An interface address: a host address with its prefix length. *)
Record cidr : Type := Cidr { addr : Z; plen : Z }.

Definition parse_cidr (s : string) : option cidr :=
  match split_on "/" s with
  | [a; p] =>
      match parse_addr a, parse_dec p with
      | Some a, Some p => if (p <=? 32)%Z then Some (Cidr a p) else None
      | _, _ => None
      end
  | _ => None
  end.

(** The text before the ['/'] of an address literal. *)
Definition host_part (s : string) : string :=
  match split_on "/" s with
  | a :: _ => a
  | [] => EmptyString
  end.

Definition netmask (p : Z) : Z :=
  Z.shiftl (Z.ones p) (32 - p).

Definition network (c : cidr) : Z := Z.land (addr c) (netmask (plen c)).

(** The subnet an interface address lies in. *)
Definition subnet_of (c : cidr) : cidr := Cidr (network c) (plen c).

Definition cidr_eqb (x y : cidr) : bool :=
  andb (addr x =? addr y)%Z (plen x =? plen y)%Z.

(** [in_subnet a n]: address [a] lies in the range of prefix [n]. *)
Definition in_subnet (a : Z) (n : cidr) : bool :=
  (Z.land a (netmask (plen n)) =? addr n)%Z.

(** Number of assignable host addresses of a prefix. *)
Definition usable_hosts (p : Z) : Z := (2 ^ (32 - p) - 2)%Z.

End IPv4.

(** ** Topology descriptor *)

(** The node class passed as [cls=]. *)
Inductive NodeCls : Type :=
| ClsLinuxRouter.

(** Keyword options stored with a node. *)
Record NodeOpts : Type := mkNodeOpts {
  cls : option NodeCls;
  ip : option string;
  defaultRoute : option string;
  isSwitch : bool
}.

(** One declared link: the two endpoints with the per-endpoint overrides
    ([intfName1]/[intfName2], [params1]/[params2]). *)
Record Link : Type := mkLink {
  node1 : string;
  node2 : string;
  intfName1 : option string;
  intfName2 : option string;
  params1 : list (string * string);
  params2 : list (string * string)
}.

Record Topo : Type := mkTopo {
  nodes : list (string * NodeOpts);
  links : list Link
}.

Definition empty_topo : Topo := mkTopo [] [].

Inductive Violation : Type :=
| DanglingReference (l : Link)
| ConflictingAddress (node intf : string)
| InconsistentSubnet (switch : string).

Inductive TopoError : Type :=
| DuplicateNodeError (name : string)
| UnknownNodeError (name : string)
| TopologyValidationError (vs : list Violation).

(** State-and-error monad of the descriptor's methods: they act on [self]
    and either return a value or raise. *)
Definition TopoM (A : Type) : Type := Topo -> TopoError + (A * Topo).

Definition tret {A} (a : A) : TopoM A := fun t => inr (a, t).

Definition tbind {A B} (m : TopoM A) (k : A -> TopoM B) : TopoM B :=
  fun t => match m t with
           | inl e => inl e
           | inr (a, t') => k a t'
           end.

Declare Scope topo_scope.
Delimit Scope topo_scope with topo.
Notation "x <- m ;; k" := (tbind m (fun x => k))
  (at level 61, m at next level, right associativity) : topo_scope.
Notation "m ;;; k" := (tbind m (fun _ => k))
  (at level 61, right associativity) : topo_scope.

Definition has_node (name : string) (t : Topo) : bool :=
  existsb (fun p => String.eqb (fst p) name) (nodes t).

Definition find_node (name : string) (t : Topo) : option NodeOpts :=
  match find (fun p => String.eqb (fst p) name) (nodes t) with
  | Some p => Some (snd p)
  | None => None
  end.

(** Modelled from the spec: the framework's [Topo.addNode], which is not
    part of the repository.  It registers a node and returns its name; it
    fails with DuplicateNodeError if the name is already used. *)
Definition addNode (name : string) (o : NodeOpts) : TopoM string :=
  fun t =>
    if has_node name t then inl (DuplicateNodeError name)
    else inr (name, mkTopo (nodes t ++ [(name, o)]) (links t)).

(** Modelled from the spec: the framework's [Topo.addHost] and
    [Topo.addSwitch], registrations of a host and of a switch. *)
Definition addHost (name : string) (ip_ : string) (route : string)
  : TopoM string :=
  addNode name (mkNodeOpts None (Some ip_) (Some route) false).

Definition addSwitch (name : string) : TopoM string :=
  addNode name (mkNodeOpts None None None true).

(** Modelled from the spec: the framework's [Topo.addLink], which is not
    part of the repository.  It registers an undirected link; it fails with
    UnknownNodeError if either endpoint name is unregistered. *)
Definition addLink (l : Link) : TopoM unit :=
  fun t =>
    if negb (has_node (node1 l) t) then inl (UnknownNodeError (node1 l))
    else if negb (has_node (node2 l) t) then inl (UnknownNodeError (node2 l))
    else inr (tt, mkTopo (nodes t) (links t ++ [l])).

(** [self.addLink(a, b)] *)
Definition plain_link (a b : string) : Link :=
  mkLink a b None None [] [].

(** [self.addLink(a, b, intfName2=i, params2={'ip': p})] *)
Definition addressed_link (a b i p : string) : Link :=
  mkLink a b None (Some i) [] [("ip", p)].

Module NetworkTopo.

Local Open Scope topo_scope.

(** [NetworkTopo.build] *)
Definition build : TopoM unit :=
  routerA <- addNode "rA"
    (mkNodeOpts (Some ClsLinuxRouter) (Some "20.10.100.1/24") None false) ;;
  routerB <- addNode "rB"
    (mkNodeOpts (Some ClsLinuxRouter) (Some "20.10.100.2/24") None false) ;;
  routerC <- addNode "rC"
    (mkNodeOpts (Some ClsLinuxRouter) (Some "20.10.100.3/24") None false) ;;
  switchA <- addSwitch "s1" ;;
  switchB <- addSwitch "s2" ;;
  switchC <- addSwitch "s3" ;;
  switchRouter <- addSwitch "s4" ;;
  hostA1 <- addHost "hA1" "20.10.172.130/26" "via 20.10.172.129" ;;
  hostA2 <- addHost "hA2" "20.10.172.131/26" "via 20.10.172.129" ;;
  hostB1 <- addHost "hB1" "20.10.172.2/25" "via 20.10.172.1" ;;
  hostB2 <- addHost "hB2" "20.10.172.3/25" "via 20.10.172.1" ;;
  hostC1 <- addHost "hC1" "20.10.172.194/27" "via 20.10.172.193" ;;
  hostC2 <- addHost "hC2" "20.10.172.195/27" "via 20.10.172.193" ;;
  addLink (addressed_link switchRouter routerA "rA-eth1" "20.10.100.1/24") ;;;
  addLink (addressed_link switchRouter routerB "rB-eth1" "20.10.100.2/24") ;;;
  addLink (addressed_link switchRouter routerC "rC-eth1" "20.10.100.3/24") ;;;
  addLink (addressed_link switchA routerA "rA-eth0" "20.10.172.129/26") ;;;
  addLink (addressed_link switchB routerB "rB-eth0" "20.10.172.1/25") ;;;
  addLink (addressed_link switchC routerC "rC-eth0" "20.10.172.193/27") ;;;
  addLink (plain_link hostA1 switchA) ;;;
  addLink (plain_link hostA2 switchA) ;;;
  addLink (plain_link hostB1 switchB) ;;;
  addLink (plain_link hostB2 switchB) ;;;
  addLink (plain_link hostC1 switchC) ;;;
  addLink (plain_link hostC2 switchC).

(** [NetworkTopo()]: the framework's constructor runs [build] on an empty
    descriptor. *)
Definition new : TopoError + Topo :=
  match build empty_topo with
  | inl e => inl e
  | inr (_, t) => inr t
  end.

End NetworkTopo.

(** ** Reading a descriptor *)

Inductive Role : Type := Router | Host | Switch.

Definition Role_eqb (a b : Role) : bool :=
  match a, b with
  | Router, Router | Host, Host | Switch, Switch => true
  | _, _ => false
  end.

(** A switch is a node registered with [isSwitch]; a router is a node whose
    class is [LinuxRouter]; every other node is a host. *)
Definition role (o : NodeOpts) : Role :=
  if isSwitch o then Switch
  else match cls o with
       | Some ClsLinuxRouter => Router
       | None => Host
       end.

Definition role_of (name : string) (t : Topo) : option Role :=
  option_map role (find_node name t).

Definition has_role (r : Role) (t : Topo) (name : string) : bool :=
  match role_of name t with
  | Some r' => Role_eqb r r'
  | None => false
  end.

Definition names_with_role (r : Role) (t : Topo) : list string :=
  map fst (filter (fun p => Role_eqb r (role (snd p))) (nodes t)).

(** The nodes at the far end of the links of [name], one per link. *)
Definition neighbours (name : string) (t : Topo) : list string :=
  flat_map (fun l =>
    (if String.eqb (node1 l) name then [node2 l] else []) ++
    (if String.eqb (node2 l) name then [node1 l] else [])) (links t).

Fixpoint lookup_param (k : string) (ps : list (string * string))
  : option string :=
  match ps with
  | [] => None
  | (k', v) :: rest => if String.eqb k' k then Some v else lookup_param k rest
  end.

Definition node_ip (name : string) (t : Topo) : option string :=
  match find_node name t with
  | Some o => ip o
  | None => None
  end.

(** The address of one endpoint of a link: the link's own assignment for
    that endpoint when it carries one, the node's address otherwise. *)
Definition endpoint_ip (t : Topo) (name : string)
  (ps : list (string * string)) : option string :=
  match lookup_param "ip" ps with
  | Some a => Some a
  | None => node_ip name t
  end.

(** The interfaces attached to a switch: for each link of the switch, the
    node at the far end with that endpoint's address. *)
Definition segment (sw : string) (t : Topo)
  : list (string * option string) :=
  flat_map (fun l =>
    (if String.eqb (node1 l) sw
     then [(node2 l, endpoint_ip t (node2 l) (params2 l))] else []) ++
    (if String.eqb (node2 l) sw
     then [(node1 l, endpoint_ip t (node1 l) (params1 l))] else []))
    (links t).

(** Every address carried by an interface of a non-switch node, one entry
    per link endpoint. *)
Definition interface_ips (t : Topo) : list (string * option string) :=
  flat_map (fun sw => segment sw t) (names_with_role Switch t).

(** A LAN switch has a host attached; the backbone switch has routers
    only. *)
Definition is_lan_switch (t : Topo) (sw : string) : bool :=
  has_role Switch t sw && existsb (has_role Host t) (neighbours sw t).

Definition is_backbone_switch (t : Topo) (sw : string) : bool :=
  has_role Switch t sw
  && negb (Nat.eqb (List.length (neighbours sw t)) 0)
  && forallb (has_role Router t) (neighbours sw t).

Definition lan_switches (t : Topo) : list string :=
  filter (is_lan_switch t) (names_with_role Switch t).

Definition backbone_switches (t : Topo) : list string :=
  filter (is_backbone_switch t) (names_with_role Switch t).

(** ** The invariants of a topology *)

Definition link_resolved (t : Topo) (l : Link) : bool :=
  has_node (node1 l) t && has_node (node2 l) t.

(** No link endpoint references an unregistered node. *)
Definition no_dangling (t : Topo) : bool :=
  forallb (link_resolved t) (links t).

(** The address assignments links make to named interfaces. *)
Definition assignment_of (name : string) (intf : option string)
  (ps : list (string * string)) : list ((string * string) * string) :=
  match intf, lookup_param "ip" ps with
  | Some i, Some a => [((name, i), a)]
  | _, _ => []
  end.

Definition intf_assignments (t : Topo)
  : list ((string * string) * string) :=
  flat_map (fun l =>
    assignment_of (node1 l) (intfName1 l) (params1 l) ++
    assignment_of (node2 l) (intfName2 l) (params2 l)) (links t).

Definition same_intf (x y : string * string) : bool :=
  String.eqb (fst x) (fst y) && String.eqb (snd x) (snd y).

Fixpoint assigned_once (l : list ((string * string) * string)) : bool :=
  match l with
  | [] => true
  | (k, _) :: rest =>
      negb (existsb (fun q => same_intf k (fst q)) rest) && assigned_once rest
  end.

(** No interface is assigned an address by two links. *)
Definition no_duplicate_assignment (t : Topo) : bool :=
  assigned_once (intf_assignments t).

(** The subnets of the addresses found on a segment; [None] for an
    endpoint without a well-formed address. *)
Definition segment_subnets (sw : string) (t : Topo)
  : list (option IPv4.cidr) :=
  map (fun e => match snd e with
                | Some a => option_map IPv4.subnet_of (IPv4.parse_cidr a)
                | None => None
                end) (segment sw t).

Definition all_in (n : IPv4.cidr) (l : list (option IPv4.cidr)) : bool :=
  forallb (fun o => match o with
                    | Some m => IPv4.cidr_eqb m n
                    | None => false
                    end) l.

(** All endpoints on one switch share one subnet. *)
Definition segment_consistent (t : Topo) (sw : string) : bool :=
  match segment_subnets sw t with
  | [] => true
  | Some n :: rest => all_in n rest
  | None :: _ => false
  end.

Definition subnet_consistent (t : Topo) : bool :=
  forallb (segment_consistent t) (names_with_role Switch t).

Definition valid_topology (t : Topo) : bool :=
  no_dangling t && no_duplicate_assignment t && subnet_consistent t.

(** The router a segment's hosts use: the address, without its prefix
    length, of the first router interface on the switch. *)
Definition gateway_of (sw : string) (t : Topo) : option string :=
  match filter (fun e => has_role Router t (fst e)) (segment sw t) with
  | (_, Some a) :: _ => Some (IPv4.host_part a)
  | _ => None
  end.

Definition node_defaultRoute (name : string) (t : Topo) : option string :=
  match find_node name t with
  | Some o => defaultRoute o
  | None => None
  end.

(** The default route of [h] names the gateway of the switch [sw]. *)
Definition routes_via (t : Topo) (h sw : string) : bool :=
  match node_defaultRoute h t, gateway_of sw t with
  | Some r, Some g => String.eqb r (String.append "via " g)
  | _, _ => false
  end.

(** The decoded address of every interface of a non-switch node. *)
Definition interface_addrs (t : Topo) : list (option Z) :=
  map (fun e => match snd e with
                | Some a => option_map IPv4.addr (IPv4.parse_cidr a)
                | None => None
                end) (interface_ips t).

Fixpoint distinctb (l : list (option Z)) : bool :=
  match l with
  | [] => true
  | x :: rest =>
      negb (existsb (fun y => match x, y with
                              | Some a, Some b => (a =? b)%Z
                              | None, None => true
                              | _, _ => false
                              end) rest)
      && distinctb rest
  end.

(** The topology the script declares; [empty_topo] stands in for the
    failure branch, which [network_declared] below shows is not taken. *)
Definition network : Topo :=
  match NetworkTopo.new with
  | inr t => t
  | inl _ => empty_topo
  end.

(** ** The router node

    [LinuxRouter] extends the framework's [Node] and overrides [config] and
    [terminate]; both call the inherited method and [self.cmd].  The base
    class is an interface here: any of its three methods may return or
    raise, and what it does to the node is left to the instance. *)

Definition Params : Type := list (string * string).

Inductive outcome (S : Type) : Type :=
| Returned (s : S)
| Raised (e : string) (s : S).
Arguments Returned {S} s.
Arguments Raised {S} e s.

Definition state_of {S} (o : outcome S) : S :=
  match o with
  | Returned s => s
  | Raised _ s => s
  end.

Definition has_returned {S} (o : outcome S) : bool :=
  match o with
  | Returned _ => true
  | Raised _ _ => false
  end.

(** The methods inherited from [Node]; the output of [cmd] is dropped, as
    both callers drop it. *)
Class NodeBase (N : Type) : Type := {
  Node_config : Params -> N -> outcome N;
  Node_cmd : string -> N -> outcome N;
  Node_terminate : N -> outcome N
}.

(** The calls a router method makes on its base class, in order, each with
    whether it returned. *)
Inductive Call : Type :=
| SuperConfig (p : Params)
| Cmd (c : string)
| SuperTerminate.

Record Event : Type := mkEvent { call : Call; returned : bool }.

Definition invoke {N} (c : Call) (f : N -> outcome N)
  (w : N * list Event) : outcome (N * list Event) :=
  match f (fst w) with
  | Returned n => Returned (n, snd w ++ [mkEvent c true])
  | Raised e n => Raised e (n, snd w ++ [mkEvent c false])
  end.

(** Sequencing of two statements: an exception ends the method. *)
Definition and_then {W} (a b : W -> outcome W) (w : W) : outcome W :=
  match a w with
  | Returned w' => b w'
  | Raised e w' => Raised e w'
  end.

Definition enable_forwarding : string := "sysctl net.ipv4.ip_forward=1".
Definition disable_forwarding : string := "sysctl net.ipv4.ip_forward=0".

Module LinuxRouter.
Section Methods.
Context {N : Type} {B : NodeBase N}.

(** [LinuxRouter.config] *)
Definition config (params : Params)
  : N * list Event -> outcome (N * list Event) :=
  and_then (invoke (SuperConfig params) (Node_config params))
           (invoke (Cmd enable_forwarding) (Node_cmd enable_forwarding)).

(** [LinuxRouter.terminate] *)
Definition terminate : N * list Event -> outcome (N * list Event) :=
  and_then (invoke (Cmd disable_forwarding) (Node_cmd disable_forwarding))
           (invoke SuperTerminate Node_terminate).

End Methods.
End LinuxRouter.

(** The events of one invocation of a method on node [n]. *)
Definition trace_of {N} (m : N * list Event -> outcome (N * list Event))
  (n : N) : list Event :=
  snd (state_of (m (n, []))).

(** What the forwarding sysctl means for a base class with a forwarding
    flag [fwd]: a write that returns has set the flag, and the inherited
    [config] and [terminate] leave it alone. *)
Class ForwardingFlag {N : Type} (B : NodeBase N) (fwd : N -> bool) : Prop := {
  enable_sets : forall n n',
    Node_cmd enable_forwarding n = Returned n' -> fwd n' = true;
  disable_clears : forall n n',
    Node_cmd disable_forwarding n = Returned n' -> fwd n' = false;
  config_keeps : forall p n n',
    Node_config p n = Returned n' -> fwd n' = fwd n;
  terminate_keeps : forall n n',
    Node_terminate n = Returned n' -> fwd n' = fwd n
}.


(** Modelled from the spec: the framework's generic emulated host, which is
    not part of the repository.  A node has a namespace once provisioned;
    configuration fails if the namespace is not yet provisioned; [cmd]
    executes the command and returns, the forwarding sysctl setting the
    node's flag; and teardown removes the namespace. *)
Record SimNode : Type := mkSimNode {
  namespace : bool;
  ip_forward : bool;
  applied : option Params
}.

Definition no_namespace : string := "namespace not provisioned".

Definition sim_config (p : Params) (n : SimNode) : outcome SimNode :=
  if namespace n
  then Returned (mkSimNode true (ip_forward n) (Some p))
  else Raised no_namespace n.

Definition sim_cmd (c : string) (n : SimNode) : outcome SimNode :=
  Returned
    (if String.eqb c enable_forwarding
     then mkSimNode (namespace n) true (applied n)
     else if String.eqb c disable_forwarding
     then mkSimNode (namespace n) false (applied n)
     else n).

Definition sim_terminate (n : SimNode) : outcome SimNode :=
  Returned (mkSimNode false (ip_forward n) (applied n)).

#[export] Instance SimNode_base : NodeBase SimNode := {
  Node_config := sim_config;
  Node_cmd := sim_cmd;
  Node_terminate := sim_terminate
}.

(** A provisioned node before activation, and a node whose namespace does
    not exist. *)
Definition fresh_node : SimNode := mkSimNode true false None.

(** ** The orchestration script

    The engine is external.  Its replies are taken from an [Engine] record,
    one per call the script makes: whether the constructor, [start] and
    [stop] raise, and what [pingAll] returns. *)

Record Engine : Type := mkEngine {
  construct_reply : option string;
  start_reply : option string;
  pingAll_reply : string + Z;
  stop_reply : option string
}.

Inductive Exn : Type :=
| TopoExn (e : TopoError)
| EngineExn (msg : string).

Inductive Action : Type :=
| SetLogLevel (lvl : string)
| Info (msg : string)
| NewMininet (topo : Topo) (waitConnected : bool)
| Start
| PingAll
| Stop.

(** A script step appends to the log of actions and returns or raises. *)
Definition Script (A : Type) : Type :=
  list Action -> list Action * (Exn + A).

Definition sbind {A B} (m : Script A) (k : A -> Script B) : Script B :=
  fun log => match m log with
             | (log', inr a) => k a log'
             | (log', inl e) => (log', inl e)
             end.

Declare Scope script_scope.
Delimit Scope script_scope with script.
Notation "x <- m ;; k" := (sbind m (fun x => k))
  (at level 61, m at next level, right associativity) : script_scope.
Notation "m ;;; k" := (sbind m (fun _ => k))
  (at level 61, right associativity) : script_scope.

Definition act (a : Action) : Script unit :=
  fun log => (log ++ [a], inr tt).

Definition reply (a : Action) (r : option string) : Script unit :=
  fun log => (log ++ [a],
              match r with
              | Some msg => inl (EngineExn msg)
              | None => inr tt
              end).

Definition info (msg : string) : Script unit := act (Info msg).
Definition setLogLevel (lvl : string) : Script unit := act (SetLogLevel lvl).

(** [NetworkTopo()] *)
Definition new_topo : Script Topo :=
  fun log => match NetworkTopo.new with
             | inr t => (log, inr t)
             | inl e => (log, inl (TopoExn e))
             end.

(** [Mininet(topo=topo, waitConnected=True)], [net.start()],
    [net.pingAll()], [net.stop()] *)
Definition Mininet (eng : Engine) (topo : Topo) (waitConnected : bool)
  : Script unit :=
  reply (NewMininet topo waitConnected) (construct_reply eng).

Definition net_start (eng : Engine) : Script unit :=
  reply Start (start_reply eng).

Definition net_pingAll (eng : Engine) : Script Z :=
  fun log => (log ++ [PingAll],
              match pingAll_reply eng with
              | inl msg => inl (EngineExn msg)
              | inr lost => inr lost
              end).

Definition net_stop (eng : Engine) : Script unit :=
  reply Stop (stop_reply eng).

(** The newline the source writes as a backslash escape. *)
Definition nl : string := String (ascii_of_nat 10) EmptyString.

(** [ln s]: the literal [s] followed by a newline. *)
Definition ln (s : string) : string := String.append s nl.

(** The lines of the address map, as [run] prints them. *)
Definition address_map : list string :=
  [ ln "Network configuration:";
    ln "LAN A: 20.10.172.128/26 (Router A at 20.10.172.129)";
    ln "  hA1: 20.10.172.130";
    ln "  hA2: 20.10.172.131";
    ln "LAN B: 20.10.172.0/25 (Router B at 20.10.172.1)";
    ln "  hB1: 20.10.172.2";
    ln "  hB2: 20.10.172.3";
    ln "LAN C: 20.10.172.192/27 (Router C at 20.10.172.193)";
    ln "  hC1: 20.10.172.194";
    ln "  hC2: 20.10.172.195";
    ln "Router interconnect: 20.10.100.0/24";
    ln "  rA: 20.10.100.1";
    ln "  rB: 20.10.100.2";
    ln (ln "  rC: 20.10.100.3") ].

Fixpoint info_lines (ls : list string) : Script unit :=
  match ls with
  | [] => fun log => (log, inr tt)
  | l :: rest => sbind (info l) (fun _ => info_lines rest)
  end.

Local Open Scope script_scope.

(** [run] *)
Definition run (eng : Engine) : Script unit :=
  topo <- new_topo ;;
  Mininet eng topo true ;;;
  info (ln "Starting network") ;;;
  net_start eng ;;;
  info_lines address_map ;;;
  info (ln "Testing connectivity within each LAN using pingall") ;;;
  _lost <- net_pingAll eng ;;
  info (ln "*** Stopping network") ;;;
  net_stop eng.

(** The [__main__] block: the process entry point. *)
Definition main (eng : Engine) : Script unit :=
  setLogLevel "info" ;;;
  run eng.

Local Close Scope script_scope.

Definition actions_of (m : Script unit) : list Action := fst (m []).
Definition completed (m : Script unit) : bool :=
  match snd (m []) with
  | inr _ => true
  | inl _ => false
  end.

(** An engine none of whose calls raises and whose probe reports [lost]. *)
Definition engine_ok (lost : Z) : Engine :=
  mkEngine None None (inr lost) None.

(** ** The declarations of [build] as data *)

(** Registration of a list of nodes, then of a list of links, in order. *)
Fixpoint addNodes (ns : list (string * NodeOpts)) : TopoM unit :=
  match ns with
  | [] => tret tt
  | (n, o) :: rest => tbind (addNode n o) (fun _ => addNodes rest)
  end.

Fixpoint addLinks (ls : list Link) : TopoM unit :=
  match ls with
  | [] => tret tt
  | l :: rest => tbind (addLink l) (fun _ => addLinks rest)
  end.

Definition declared_nodes : list (string * NodeOpts) :=
  [ ("rA", mkNodeOpts (Some ClsLinuxRouter) (Some "20.10.100.1/24") None false);
    ("rB", mkNodeOpts (Some ClsLinuxRouter) (Some "20.10.100.2/24") None false);
    ("rC", mkNodeOpts (Some ClsLinuxRouter) (Some "20.10.100.3/24") None false);
    ("s1", mkNodeOpts None None None true);
    ("s2", mkNodeOpts None None None true);
    ("s3", mkNodeOpts None None None true);
    ("s4", mkNodeOpts None None None true);
    ("hA1", mkNodeOpts None (Some "20.10.172.130/26")
              (Some "via 20.10.172.129") false);
    ("hA2", mkNodeOpts None (Some "20.10.172.131/26")
              (Some "via 20.10.172.129") false);
    ("hB1", mkNodeOpts None (Some "20.10.172.2/25")
              (Some "via 20.10.172.1") false);
    ("hB2", mkNodeOpts None (Some "20.10.172.3/25")
              (Some "via 20.10.172.1") false);
    ("hC1", mkNodeOpts None (Some "20.10.172.194/27")
              (Some "via 20.10.172.193") false);
    ("hC2", mkNodeOpts None (Some "20.10.172.195/27")
              (Some "via 20.10.172.193") false) ].

Definition declared_links : list Link :=
  [ addressed_link "s4" "rA" "rA-eth1" "20.10.100.1/24";
    addressed_link "s4" "rB" "rB-eth1" "20.10.100.2/24";
    addressed_link "s4" "rC" "rC-eth1" "20.10.100.3/24";
    addressed_link "s1" "rA" "rA-eth0" "20.10.172.129/26";
    addressed_link "s2" "rB" "rB-eth0" "20.10.172.1/25";
    addressed_link "s3" "rC" "rC-eth0" "20.10.172.193/27";
    plain_link "hA1" "s1"; plain_link "hA2" "s1";
    plain_link "hB1" "s2"; plain_link "hB2" "s2";
    plain_link "hC1" "s3"; plain_link "hC2" "s3" ].

(** ** The addressing plan, as the specification tabulates it

    One row per segment: the switch, the prefix, the gateway and the
    addresses of the attached nodes. *)
Record PlanRow : Type := mkRow {
  row_switch : string;
  row_prefix : string;
  row_gateway : option string;
  row_members : list (string * string)
}.

Definition addressing_plan : list PlanRow :=
  [ mkRow "s1" "20.10.172.128/26" (Some "20.10.172.129")
      [("rA", "20.10.172.129"); ("hA1", "20.10.172.130");
       ("hA2", "20.10.172.131")];
    mkRow "s2" "20.10.172.0/25" (Some "20.10.172.1")
      [("rB", "20.10.172.1"); ("hB1", "20.10.172.2"); ("hB2", "20.10.172.3")];
    mkRow "s3" "20.10.172.192/27" (Some "20.10.172.193")
      [("rC", "20.10.172.193"); ("hC1", "20.10.172.194");
       ("hC2", "20.10.172.195")];
    mkRow "s4" "20.10.100.0/24" None
      [("rA", "20.10.100.1"); ("rB", "20.10.100.2"); ("rC", "20.10.100.3")] ].

(** What a topology realises of a row: the attached nodes with the host
    part of their addresses, and the subnet of each address. *)
Definition realised_members (sw : string) (t : Topo)
  : list (string * string) :=
  map (fun e => (fst e, match snd e with
                        | Some a => IPv4.host_part a
                        | None => EmptyString
                        end)) (segment sw t).

Definition row_realised (t : Topo) (r : PlanRow) : bool :=
  match IPv4.parse_cidr (row_prefix r) with
  | Some n =>
      all_in n (segment_subnets (row_switch r) t)
      && (IPv4.network n =? IPv4.addr n)%Z
  | None => false
  end.

(** ** A descriptor with an inconsistent segment

    Two hosts on one switch, addressed from different prefixes, declared
    with the descriptor's own operations before [build] runs. *)
Definition mixed_segment_draft : Topo :=
  match
    tbind (addSwitch "s9") (fun sw =>
    tbind (addHost "hX" "10.0.0.1/24" "via 10.0.0.254") (fun x =>
    tbind (addHost "hY" "192.168.7.1/24" "via 192.168.7.254") (fun y =>
    tbind (addLink (plain_link x sw)) (fun _ =>
    addLink (plain_link y sw))))) empty_topo
  with
  | inr (_, t) => t
  | inl _ => empty_topo
  end.

(** A descriptor in which the name [rA] is already taken. *)
Definition taken_name_draft : Topo :=
  mkTopo [("rA", mkNodeOpts None None None true)] [].

(** ** What the script is expected to do *)

(** The actions that precede the probe, and the whole run. *)
Definition actions_before_probe : list Action :=
  [SetLogLevel "info"; NewMininet network true;
   Info (ln "Starting network"); Start]
  ++ map Info address_map
  ++ [Info (ln "Testing connectivity within each LAN using pingall")].

Definition expected_actions : list Action :=
  actions_before_probe
  ++ [PingAll; Info (ln "*** Stopping network"); Stop].

(** The options a router of the topology is configured with. *)
Definition rA_params : Params := [("ip", "20.10.100.1/24")].

(** ** Sequences of router method calls *)

Inductive Method : Type :=
| DoConfig (p : Params)
| DoTerminate.

Definition is_config (m : Method) : bool :=
  match m with
  | DoConfig _ => true
  | DoTerminate => false
  end.

(** The events of a method call in which every base call returns. *)
Definition events_of (m : Method) : list Event :=
  match m with
  | DoConfig p =>
      [mkEvent (SuperConfig p) true; mkEvent (Cmd enable_forwarding) true]
  | DoTerminate =>
      [mkEvent (Cmd disable_forwarding) true; mkEvent SuperTerminate true]
  end.

Section MethodCalls.
Context {N : Type} {B : NodeBase N}.

Definition call_method (m : Method)
  : N * list Event -> outcome (N * list Event) :=
  match m with
  | DoConfig p => LinuxRouter.config p
  | DoTerminate => LinuxRouter.terminate
  end.

(** The calls of [ms] one after the other; the first exception ends the
    sequence. *)
Fixpoint call_methods (ms : list Method)
  : N * list Event -> outcome (N * list Event) :=
  match ms with
  | [] => fun w => Returned w
  | m :: rest => and_then (call_method m) (call_methods rest)
  end.

End MethodCalls.

(** ** Paths in a topology *)

Definition adjacent (t : Topo) (a b : string) : Prop :=
  exists l, In l (links t)
            /\ ((node1 l = a /\ node2 l = b) \/ (node1 l = b /\ node2 l = a)).

Inductive connected (t : Topo) : string -> string -> Prop :=
| connected_refl a : connected t a a
| connected_step a b c :
    adjacent t a b -> connected t b c -> connected t a c.

(** ** Directly connected subnets *)

(** The subnets of the interfaces of a node. *)
Definition subnets_of_node (name : string) (t : Topo) : list IPv4.cidr :=
  flat_map (fun e =>
    if String.eqb (fst e) name
    then match snd e with
         | Some a => match IPv4.parse_cidr a with
                     | Some c => [IPv4.subnet_of c]
                     | None => []
                     end
         | None => []
         end
    else []) (interface_ips t).

(** [on_link t name a]: address [a] lies in a subnet of an interface of
    [name], so [name] reaches it without a router. *)
Definition on_link (t : Topo) (name : string) (a : Z) : bool :=
  existsb (IPv4.in_subnet a) (subnets_of_node name t).

Definition host_addr (name : string) (t : Topo) : option Z :=
  match node_ip name t with
  | Some a => option_map IPv4.addr (IPv4.parse_cidr a)
  | None => None
  end.

(** The switch a host is attached to, and the router on that switch. *)
Definition switch_of (h : string) (t : Topo) : option string :=
  match neighbours h t with
  | sw :: _ => Some sw
  | [] => None
  end.

Definition router_on (sw : string) (t : Topo) : option string :=
  match filter (has_role Router t) (neighbours sw t) with
  | r :: _ => Some r
  | [] => None
  end.

Definition gateway_router (h : string) (t : Topo) : option string :=
  match switch_of h t with
  | Some sw => router_on sw t
  | None => None
  end.

Definition same_lan (t : Topo) (h h' : string) : bool :=
  match switch_of h t, switch_of h' t with
  | Some a, Some b => String.eqb a b
  | _, _ => false
  end.

(** Can [h] deliver to [h'] directly, and can the gateway of [h]? *)
Definition delivers_directly (t : Topo) (h h' : string) : bool :=
  match host_addr h' t with
  | Some a => on_link t h a
  | None => false
  end.

Definition gateway_delivers (t : Topo) (h h' : string) : bool :=
  match gateway_router h t, host_addr h' t with
  | Some r, Some a => on_link t r a
  | _, _ => false
  end.

(** The subnet of each segment, one per switch. *)
Definition declared_subnets (t : Topo) : list IPv4.cidr :=
  flat_map (fun sw => match segment_subnets sw t with
                      | Some n :: _ => [n]
                      | _ => []
                      end) (names_with_role Switch t).

(** The last address of a prefix. *)
Definition broadcast (n : IPv4.cidr) : Z :=
  (IPv4.addr n + 2 ^ (32 - IPv4.plen n) - 1)%Z.

(** An interface address that is neither the first nor the last address of
    its subnet. *)
Definition assignable (lit : string) : bool :=
  match IPv4.parse_cidr lit with
  | Some c =>
      negb (IPv4.addr c =? IPv4.network c)%Z
      && negb (IPv4.addr c =? broadcast (IPv4.subnet_of c))%Z
  | None => false
  end.

(** ** Printing addresses *)

Definition show_dec (n : Z) : string :=
  DecimalString.NilZero.string_of_uint (N.to_uint (Z.to_N n)).

Definition show_addr (a : Z) : string :=
  String.append (show_dec (Z.land (Z.shiftr a 24) 255))
   (String.append "."
   (String.append (show_dec (Z.land (Z.shiftr a 16) 255))
   (String.append "."
   (String.append (show_dec (Z.land (Z.shiftr a 8) 255))
   (String.append "." (show_dec (Z.land a 255))))))).

Definition show_cidr (c : IPv4.cidr) : string :=
  String.append (show_addr (IPv4.addr c))
    (String.append "/" (show_dec (IPv4.plen c))).

(** The address map a topology calls for, in the layout [run] prints: one
    block per LAN switch with its subnet, its router and its hosts, then the
    backbone with the routers' addresses on it. *)
Definition concat_strings (l : list string) : string :=
  fold_right String.append EmptyString l.

Definition letter_of (router : string) : string :=
  match router with
  | String _ rest => rest
  | EmptyString => EmptyString
  end.

Definition member_line (e : string * option string) : string :=
  concat_strings
    ["  "; fst e; ": ";
     match snd e with
     | Some a => IPv4.host_part a
     | None => EmptyString
     end].

Definition subnet_text (sw : string) (t : Topo) : string :=
  match segment_subnets sw t with
  | Some n :: _ => show_cidr n
  | _ => EmptyString
  end.

Definition lan_block (t : Topo) (sw : string) : list string :=
  match router_on sw t, gateway_of sw t with
  | Some r, Some g =>
      ln (concat_strings
            ["LAN "; letter_of r; ": "; subnet_text sw t;
             " (Router "; letter_of r; " at "; g; ")"])
      :: map (fun e => ln (member_line e))
             (filter (fun e => has_role Host t (fst e)) (segment sw t))
  | _, _ => []
  end.

Definition backbone_block (t : Topo) (sw : string) : list string :=
  ln (concat_strings ["Router interconnect: "; subnet_text sw t])
  :: map (fun e => ln (member_line e)) (segment sw t).

Fixpoint end_with_blank_line (l : list string) : list string :=
  match l with
  | [] => []
  | [x] => [ln x]
  | x :: rest => x :: end_with_blank_line rest
  end.

Definition address_map_of (t : Topo) : list string :=
  end_with_blank_line
    (ln "Network configuration:"
     :: flat_map (lan_block t) (lan_switches t)
     ++ flat_map (backbone_block t) (backbone_switches t)).

Definition is_SetLogLevel (a : Action) : bool :=
  match a with
  | SetLogLevel _ => true
  | _ => false
  end.

Definition is_Stop (a : Action) : bool :=
  match a with
  | Stop => true
  | _ => false
  end.

Definition raised_by (m : Script unit) : option Exn :=
  match snd (m []) with
  | inl e => Some e
  | inr _ => None
  end.

(** A descriptor that already holds a consistent segment of its own. *)
Definition consistent_draft : Topo :=
  match
    tbind (addSwitch "s9") (fun sw =>
    tbind (addHost "hX" "10.0.0.1/24" "via 10.0.0.254") (fun x =>
    tbind (addHost "hY" "10.0.0.2/24" "via 10.0.0.254") (fun y =>
    tbind (addLink (plain_link x sw)) (fun _ =>
    addLink (plain_link y sw))))) empty_topo
  with
  | inr (_, t) => t
  | inl _ => empty_topo
  end.

(** What [build] makes of a descriptor when it returns. *)
Definition extended (t0 : Topo) : Topo :=
  mkTopo (nodes t0 ++ declared_nodes) (links t0 ++ declared_links).

(** * Properties of the topology declaration *)

(** ** [build] on an arbitrary descriptor *)

Lemma addNode_returns name o t x t' :
  addNode name o t = inr (x, t') ->
  x = name /\ has_node name t = false
  /\ t' = mkTopo (nodes t ++ [(name, o)]) (links t).
Proof.
  unfold addNode. destruct (has_node name t); [discriminate|].
  intros H; inversion H; subst; auto.
Qed.

Lemma addNode_raises name o t e :
  addNode name o t = inl e ->
  e = DuplicateNodeError name /\ has_node name t = true.
Proof.
  unfold addNode. destruct (has_node name t) eqn:E; [|discriminate].
  intros H; inversion H; auto.
Qed.

Lemma addNode_name name o t x t' :
  addNode name o t = inr (x, t') -> x = name.
Proof. intros H; apply addNode_returns in H; tauto. Qed.

Lemma tbind_ext {A B} (m : TopoM A) (k k' : A -> TopoM B) t :
  (forall a t', k a t' = k' a t') -> tbind m k t = tbind m k' t.
Proof. intros H. unfold tbind. destruct (m t) as [e|[a t']]; auto. Qed.

Lemma tbind_addNode {B} n o (k k' : string -> TopoM B) t :
  (forall t', k n t' = k' n t') ->
  tbind (addNode n o) k t = tbind (addNode n o) k' t.
Proof.
  intros H. unfold tbind.
  destruct (addNode n o t) as [e|[x t']] eqn:E; auto.
  apply addNode_name in E; subst; auto.
Qed.

Lemma tbind_ret_r (m : TopoM unit) t :
  tbind m (fun _ => tret tt) t = m t.
Proof. unfold tbind, tret. destruct (m t) as [e|[[] t']]; auto. Qed.

Lemma addNodes_cons_then {B} n o rest (h : unit -> TopoM B) t :
  tbind (addNodes ((n, o) :: rest)) h t
  = tbind (addNode n o) (fun _ => tbind (addNodes rest) h) t.
Proof.
  cbn [addNodes]. unfold tbind.
  destruct (addNode n o t) as [e|[x t']]; reflexivity.
Qed.

(** [build] is the registration of [declared_nodes] followed by that of
    [declared_links]. *)
Lemma build_unfold t :
  NetworkTopo.build t = tbind (addNodes declared_nodes)
                              (fun _ => addLinks declared_links) t.
Proof.
  unfold NetworkTopo.build, addHost, addSwitch, declared_nodes.
  revert t.
  do 13 (intros t; rewrite addNodes_cons_then; apply tbind_addNode; clear t).
  intros t. cbn [addNodes declared_links addLinks]. unfold tbind at 12, tret at 1.
  revert t.
  do 11 (intros t; apply tbind_ext; clear t; intros _).
  intros t. now rewrite tbind_ret_r.
Qed.

Lemma addNodes_raises ns : forall t e,
  addNodes ns t = inl e ->
  exists n, In n (map fst ns) /\ e = DuplicateNodeError n.
Proof.
  induction ns as [|[n o] rest IH]; intros t e; cbn [addNodes].
  - discriminate.
  - unfold tbind. destruct (addNode n o t) as [e'|[x t']] eqn:E.
    + intros H; inversion H; subst. apply addNode_raises in E.
      exists n; simpl; intuition.
    + intros H. destruct (IH _ _ H) as (m & Hm & ->).
      exists m; simpl; auto.
Qed.

Lemma addNodes_returns ns : forall t u t',
  addNodes ns t = inr (u, t') ->
  nodes t' = nodes t ++ ns /\ links t' = links t.
Proof.
  induction ns as [|[n o] rest IH]; intros t u t'; cbn [addNodes].
  - unfold tret. intros H; inversion H; subst. now rewrite app_nil_r.
  - unfold tbind. destruct (addNode n o t) as [e'|[x t1]] eqn:E; [discriminate|].
    intros H. apply IH in H. apply addNode_returns in E.
    destruct E as (_ & _ & ->). simpl in H.
    now rewrite <- app_assoc in H.
Qed.

(** Links between registered nodes are all accepted. *)
Lemma addLinks_returns ls : forall t,
  forallb (link_resolved t) ls = true ->
  addLinks ls t = inr (tt, mkTopo (nodes t) (links t ++ ls)).
Proof.
  induction ls as [|l rest IH]; intros t H; cbn [addLinks].
  - unfold tret. rewrite app_nil_r. now destruct t.
  - simpl in H. apply andb_true_iff in H. destruct H as [Hl Hrest].
    unfold link_resolved in Hl. apply andb_true_iff in Hl.
    destruct Hl as [H1 H2].
    unfold tbind, addLink. rewrite H1, H2. simpl.
    rewrite IH; simpl.
    + now rewrite <- app_assoc.
    + exact Hrest.
Qed.

Lemma has_node_app_r name t l ns :
  existsb (fun p => String.eqb (fst p) name) ns = true ->
  has_node name (mkTopo (nodes t ++ ns) l) = true.
Proof.
  intros H. unfold has_node; simpl. rewrite existsb_app, H.
  apply orb_true_r.
Qed.

Lemma build_raises t0 e :
  NetworkTopo.build t0 = inl e ->
  exists n, In n (map fst declared_nodes) /\ e = DuplicateNodeError n.
Proof.
  rewrite build_unfold. unfold tbind.
  destruct (addNodes declared_nodes t0) as [e'|[u t1]] eqn:E.
  - intros H; inversion H; subst. eapply addNodes_raises; eauto.
  - apply addNodes_returns in E. destruct E as [En El].
    rewrite addLinks_returns; [discriminate|].
    destruct t1 as [ns ls]; simpl in En, El; subst.
    unfold declared_links, link_resolved.
    cbn [forallb node1 node2 addressed_link plain_link].
    repeat rewrite has_node_app_r by reflexivity. reflexivity.
Qed.

Lemma build_returns t0 u t :
  NetworkTopo.build t0 = inr (u, t) ->
  nodes t = nodes t0 ++ declared_nodes /\
  links t = links t0 ++ declared_links.
Proof.
  rewrite build_unfold. unfold tbind.
  destruct (addNodes declared_nodes t0) as [e'|[u1 t1]] eqn:E; [discriminate|].
  apply addNodes_returns in E. destruct E as [En El].
  rewrite addLinks_returns.
  - intros H; inversion H; subst; simpl. now rewrite En, El.
  - destruct t1 as [ns ls]; simpl in En, El; subst.
    unfold declared_links, link_resolved.
    cbn [forallb node1 node2 addressed_link plain_link].
    repeat rewrite has_node_app_r by reflexivity. reflexivity.
Qed.

(** The topology the script declares is the one [build] leaves in a fresh
    descriptor. *)
Lemma network_declared :
  NetworkTopo.build empty_topo = inr (tt, network)
  /\ network = mkTopo declared_nodes declared_links.
Proof. split; reflexivity. Qed.

(** C2, as stated, fails: [build] checks nothing.  Run on a descriptor that
    already holds a segment whose two hosts are addressed from different
    prefixes, it returns normally, and the topology it returns violates
    subnet consistency. *)
Lemma build_accepts_mixed_segment :
  exists t, NetworkTopo.build mixed_segment_draft = inr (tt, t)
            /\ segment_consistent t "s9" = false
            /\ subnet_consistent t = false
            /\ valid_topology t = false.
Proof.
  eexists. split; [vm_compute; reflexivity|].
  repeat split; vm_compute; reflexivity.
Qed.

(** C2 (amended): [build] performs no validation.  On any descriptor it
    issues its thirteen node and twelve link registrations in order; it
    fails only when a registration fails, always with DuplicateNodeError for
    one of the names it declares and never with TopologyValidationError;
    when it returns, the descriptor holds what it held before followed by
    the declared nodes and links.  On a fresh descriptor it returns, and the
    declared topology has no dangling link endpoint, no interface assigned
    twice and one subnet per segment. *)
Theorem build_declares_without_validating :
  (forall t0 e, NetworkTopo.build t0 = inl e ->
     (forall vs, e <> TopologyValidationError vs) /\
     exists n, In n (map fst declared_nodes) /\ e = DuplicateNodeError n)
  /\ (forall t0 u t, NetworkTopo.build t0 = inr (u, t) ->
        nodes t = nodes t0 ++ declared_nodes /\
        links t = links t0 ++ declared_links)
  /\ NetworkTopo.build empty_topo = inr (tt, network)
  /\ no_dangling network = true
  /\ no_duplicate_assignment network = true
  /\ subnet_consistent network = true.
Proof.
  split; [|split; [|repeat split]].
  - intros t0 e H. apply build_raises in H.
    destruct H as (n & Hn & ->). split; [discriminate|eauto].
  - apply build_returns.
Qed.

Lemma build_declares_without_validating_witness :
  NetworkTopo.build taken_name_draft = inl (DuplicateNodeError "rA")
  /\ ((forall vs, DuplicateNodeError "rA" <> TopologyValidationError vs) /\
      exists n, In n (map fst declared_nodes)
                /\ DuplicateNodeError "rA" = DuplicateNodeError n).
Proof.
  split; [reflexivity|].
  apply (proj1 build_declares_without_validating taken_name_draft).
  reflexivity.
Defined.

(** ** The shape of the declared topology *)

(** C6: the declared topology has exactly three routers, three LAN
    switches, six hosts and one backbone switch (thirteen nodes, twelve
    links); every router has two links, one to a LAN switch and one to the
    backbone switch [s4]; every host has a single link, to a LAN switch;
    every LAN switch carries one router. *)
Theorem topology_shape :
  names_with_role Router network = ["rA"; "rB"; "rC"]
  /\ lan_switches network = ["s1"; "s2"; "s3"]
  /\ backbone_switches network = ["s4"]
  /\ names_with_role Switch network = ["s1"; "s2"; "s3"; "s4"]
  /\ names_with_role Host network
     = ["hA1"; "hA2"; "hB1"; "hB2"; "hC1"; "hC2"]
  /\ List.length (nodes network) = 13%nat
  /\ List.length (links network) = 12%nat
  /\ Forall (fun r =>
       List.length (neighbours r network) = 2%nat
       /\ List.length (filter (is_lan_switch network)
                         (neighbours r network)) = 1%nat
       /\ filter (is_backbone_switch network) (neighbours r network)
          = ["s4"])
       (names_with_role Router network)
  /\ Forall (fun h =>
       exists sw, neighbours h network = [sw]
                  /\ is_lan_switch network sw = true)
       (names_with_role Host network)
  /\ Forall (fun sw =>
       List.length (filter (has_role Router network)
                      (neighbours sw network)) = 1%nat)
       (lan_switches network).
Proof.
  repeat (split; [reflexivity|]).
  split; [|split].
  - repeat constructor.
  - repeat (constructor; [eexists; split; reflexivity|]). constructor.
  - repeat constructor.
Qed.

(** ** Addresses *)

(** The meaning of the mask test: for a 32-bit address and a prefix whose
    host bits are zero, [in_subnet] holds exactly on the address range of
    the prefix. *)
Lemma land_netmask a p :
  (0 <= p <= 32)%Z -> (0 <= a < 2 ^ 32)%Z ->
  Z.land a (IPv4.netmask p) = (a - a mod 2 ^ (32 - p))%Z.
Proof.
  intros Hp Ha. unfold IPv4.netmask.
  assert (E : Z.land a (Z.shiftl (Z.ones p) (32 - p))
              = Z.shiftl (Z.shiftr a (32 - p)) (32 - p)).
  { apply Z.bits_inj'. intros i Hi.
    rewrite Z.land_spec.
    destruct (Z.ltb_spec i (32 - p)) as [Hlt|Hge].
    - rewrite !Z.shiftl_spec_low by lia. apply andb_false_r.
    - rewrite !Z.shiftl_spec by lia. rewrite Z.shiftr_spec by lia.
      replace (i - (32 - p) + (32 - p))%Z with i by lia.
      destruct (Z.ltb_spec i 32) as [H32|H32].
      + rewrite Z.ones_spec_low by lia. apply andb_true_r.
      + rewrite Z.ones_spec_high by lia. rewrite andb_false_r.
        symmetry. destruct (Z.eq_dec a 0) as [->|Hnz].
        * apply Z.bits_0.
        * apply Z.bits_above_log2; [lia|].
          assert (Z.log2 a < 32)%Z by (apply Z.log2_lt_pow2; lia). lia. }
  rewrite E, Z.shiftr_div_pow2, Z.shiftl_mul_pow2 by lia.
  pose proof (Z.div_mod a (2 ^ (32 - p))) as D.
  assert (0 < 2 ^ (32 - p))%Z by (apply Z.pow_pos_nonneg; lia).
  lia.
Qed.

Lemma in_subnet_range a n :
  (0 <= IPv4.plen n <= 32)%Z -> (0 <= a < 2 ^ 32)%Z ->
  (IPv4.addr n mod 2 ^ (32 - IPv4.plen n) = 0)%Z ->
  IPv4.in_subnet a n = true
  <-> (IPv4.addr n <= a < IPv4.addr n + 2 ^ (32 - IPv4.plen n))%Z.
Proof.
  intros Hp Ha Hal. unfold IPv4.in_subnet.
  rewrite land_netmask by assumption. rewrite Z.eqb_eq.
  set (k := (2 ^ (32 - IPv4.plen n))%Z) in *.
  assert (Hk : (0 < k)%Z) by (apply Z.pow_pos_nonneg; lia).
  pose proof (Z.mod_pos_bound a k Hk) as Hm.
  split.
  - intros E. lia.
  - intros [Hlo Hhi].
    apply Z.mod_divide in Hal; [|lia]. destruct Hal as [q Hq].
    assert (Hd : (a mod k = a - IPv4.addr n)%Z).
    { symmetry. apply Z.mod_unique_pos with (q := q); lia. }
    lia.
Qed.

(** The host counts the script's header gives for its three LANs. *)
Lemma usable_hosts_of_lans :
  IPv4.usable_hosts 26 = 62%Z /\ IPv4.usable_hosts 25 = 126%Z
  /\ IPv4.usable_hosts 27 = 30%Z.
Proof. repeat split. Qed.

Lemma distinctb_NoDup l : distinctb l = true -> NoDup l.
Proof.
  induction l as [|x rest IH]; simpl; intros H; [constructor|].
  apply andb_true_iff in H. destruct H as [Hx Hrest].
  constructor; [|auto].
  intros Hin. apply negb_true_iff in Hx.
  assert (T : existsb (fun y => match x, y with
                                | Some a, Some b => (a =? b)%Z
                                | None, None => true
                                | _, _ => false
                                end) rest = true).
  { apply existsb_exists. exists x. split; [assumption|].
    destruct x; [apply Z.eqb_refl|reflexivity]. }
  congruence.
Qed.

(** C7: every address literal of the declared topology is the one the
    addressing plan gives.  Segment by segment the attached nodes carry the
    planned addresses, each inside the planned prefix; the gateway of each
    LAN is its router's address; the node-level address of a router is its
    backbone address; and the default route of every host is [via] the
    gateway of the LAN switch it is attached to. *)
Theorem addressing_plan_realised :
  map row_switch addressing_plan = names_with_role Switch network
  /\ Forall (fun r =>
       realised_members (row_switch r) network = row_members r
       /\ row_realised network r = true)
       addressing_plan
  /\ map (fun r => gateway_of (row_switch r) network)
         (filter (fun r => match row_gateway r with
                           | Some _ => true
                           | None => false
                           end) addressing_plan)
     = [Some "20.10.172.129"; Some "20.10.172.1"; Some "20.10.172.193"]
  /\ map row_gateway addressing_plan
     = [Some "20.10.172.129"; Some "20.10.172.1"; Some "20.10.172.193"; None]
  /\ Forall (fun h =>
       Forall (fun sw => routes_via network h sw = true)
              (neighbours h network))
       (names_with_role Host network)
  /\ map (fun p => (fst p, ip (snd p), defaultRoute (snd p))) (nodes network)
     = [ ("rA", Some "20.10.100.1/24", None);
         ("rB", Some "20.10.100.2/24", None);
         ("rC", Some "20.10.100.3/24", None);
         ("s1", None, None); ("s2", None, None);
         ("s3", None, None); ("s4", None, None);
         ("hA1", Some "20.10.172.130/26", Some "via 20.10.172.129");
         ("hA2", Some "20.10.172.131/26", Some "via 20.10.172.129");
         ("hB1", Some "20.10.172.2/25", Some "via 20.10.172.1");
         ("hB2", Some "20.10.172.3/25", Some "via 20.10.172.1");
         ("hC1", Some "20.10.172.194/27", Some "via 20.10.172.193");
         ("hC2", Some "20.10.172.195/27", Some "via 20.10.172.193") ]
  /\ intf_assignments network
     = [ (("rA", "rA-eth1"), "20.10.100.1/24");
         (("rB", "rB-eth1"), "20.10.100.2/24");
         (("rC", "rC-eth1"), "20.10.100.3/24");
         (("rA", "rA-eth0"), "20.10.172.129/26");
         (("rB", "rB-eth0"), "20.10.172.1/25");
         (("rC", "rC-eth0"), "20.10.172.193/27") ].
Proof.
  split; [reflexivity|].
  split; [repeat constructor|].
  split; [reflexivity|]. split; [reflexivity|].
  split; [repeat constructor|]. split; reflexivity.
Qed.

(** C9: on each of the four switches every attached interface has a
    well-formed address inside one common subnet, with that subnet's prefix
    length: 20.10.172.128/26 on [s1], 20.10.172.0/25 on [s2],
    20.10.172.192/27 on [s3], 20.10.100.0/24 on [s4]; so no two nodes of a
    segment are addressed from different prefixes. *)
Theorem segments_share_one_subnet :
  map (fun r => (row_switch r, row_prefix r)) addressing_plan
  = [ ("s1", "20.10.172.128/26"); ("s2", "20.10.172.0/25");
      ("s3", "20.10.172.192/27"); ("s4", "20.10.100.0/24") ]
  /\ names_with_role Switch network = map row_switch addressing_plan
  /\ Forall (fun r =>
       exists n, IPv4.parse_cidr (row_prefix r) = Some n
       /\ Forall (fun e =>
            exists lit c,
              snd e = Some lit /\ IPv4.parse_cidr lit = Some c
              /\ IPv4.plen c = IPv4.plen n
              /\ IPv4.in_subnet (IPv4.addr c) n = true
              /\ (IPv4.addr n <= IPv4.addr c
                  < IPv4.addr n + 2 ^ (32 - IPv4.plen n))%Z)
            (segment (row_switch r) network))
       addressing_plan
  /\ subnet_consistent network = true.
Proof.
  split; [reflexivity|]. split; [reflexivity|]. split; [|reflexivity].
  repeat (constructor;
          [eexists; split; [reflexivity|];
           repeat (constructor;
                   [do 2 eexists;
                    split; [reflexivity|]; split; [reflexivity|];
                    split; [reflexivity|]; split; [reflexivity|];
                    vm_compute; split; [discriminate|reflexivity] |]);
           constructor |]).
  constructor.
Qed.

(** C10: the declared topology has twelve addressed interfaces, six on
    hosts, three on the routers' LAN side and three on their backbone side;
    every one carries a well-formed address and the twelve addresses are
    pairwise distinct.  (The node-level address a router is declared with is
    the address of its backbone interface, not a further one.) *)
Theorem interface_addresses_distinct :
  interface_ips network
  = [ ("rA", Some "20.10.172.129/26"); ("hA1", Some "20.10.172.130/26");
      ("hA2", Some "20.10.172.131/26"); ("rB", Some "20.10.172.1/25");
      ("hB1", Some "20.10.172.2/25"); ("hB2", Some "20.10.172.3/25");
      ("rC", Some "20.10.172.193/27"); ("hC1", Some "20.10.172.194/27");
      ("hC2", Some "20.10.172.195/27"); ("rA", Some "20.10.100.1/24");
      ("rB", Some "20.10.100.2/24"); ("rC", Some "20.10.100.3/24") ]
  /\ List.length (interface_addrs network) = 12%nat
  /\ List.length (filter (fun e => has_role Host network (fst e))
                    (interface_ips network)) = 6%nat
  /\ List.length (filter (fun e => has_role Router network (fst e))
                    (flat_map (fun sw => segment sw network)
                       (lan_switches network))) = 3%nat
  /\ List.length (flat_map (fun sw => segment sw network)
                    (backbone_switches network)) = 3%nat
  /\ Forall (fun o => o <> None) (interface_addrs network)
  /\ NoDup (interface_addrs network)
  /\ Forall (fun r =>
       Some (node_ip r network)
       = option_map snd (find (fun e => String.eqb (fst e) r)
                           (segment "s4" network)))
       ["rA"; "rB"; "rC"].
Proof.
  repeat (split; [reflexivity|]).
  split; [|split].
  - vm_compute. repeat (constructor; [discriminate|]). constructor.
  - apply distinctb_NoDup. vm_compute. reflexivity.
  - vm_compute. repeat constructor.
Qed.

(** * Properties of the router node *)

Section RouterMethods.

Context {N : Type} {B : NodeBase N}.

(** The two statements of [config], one after the other. *)
Lemma config_unfold p n tr :
  LinuxRouter.config p (n, tr) =
  match Node_config p n with
  | Returned n1 =>
      invoke (Cmd enable_forwarding) (Node_cmd enable_forwarding)
             (n1, tr ++ [mkEvent (SuperConfig p) true])
  | Raised e n1 => Raised e (n1, tr ++ [mkEvent (SuperConfig p) false])
  end.
Proof.
  unfold LinuxRouter.config, and_then, invoke; simpl.
  destruct (Node_config p n); reflexivity.
Qed.

Lemma terminate_unfold n tr :
  LinuxRouter.terminate (n, tr) =
  match Node_cmd disable_forwarding n with
  | Returned n1 =>
      invoke SuperTerminate Node_terminate
             (n1, tr ++ [mkEvent (Cmd disable_forwarding) true])
  | Raised e n1 =>
      Raised e (n1, tr ++ [mkEvent (Cmd disable_forwarding) false])
  end.
Proof.
  unfold LinuxRouter.terminate, and_then, invoke; simpl.
  destruct (Node_cmd disable_forwarding n); reflexivity.
Qed.

Lemma config_trace p n :
  trace_of (LinuxRouter.config p) n =
  match Node_config p n with
  | Returned n1 =>
      [mkEvent (SuperConfig p) true;
       mkEvent (Cmd enable_forwarding)
               (has_returned (Node_cmd enable_forwarding n1))]
  | Raised _ _ => [mkEvent (SuperConfig p) false]
  end.
Proof.
  unfold trace_of. rewrite config_unfold.
  destruct (Node_config p n) as [n1|e n1]; [|reflexivity].
  unfold invoke; simpl.
  destruct (Node_cmd enable_forwarding n1); reflexivity.
Qed.

End RouterMethods.

(** The simulated node obeys the meaning of the forwarding sysctl. *)
Lemma SimNode_forwarding : ForwardingFlag SimNode_base ip_forward.
Proof.
  constructor; simpl.
  - intros n n'. unfold sim_cmd. intros H; inversion H; reflexivity.
  - intros n n'. unfold sim_cmd. intros H; inversion H; reflexivity.
  - intros p n n'. unfold sim_config. destruct (namespace n); [|discriminate].
    intros H; inversion H; reflexivity.
  - intros n n'. unfold sim_terminate. intros H; inversion H; reflexivity.
Qed.


(** C3: in every invocation of [LinuxRouter.config], whatever the base
    class does, the inherited configuration is called first, and the command
    enabling IP forwarding is issued only after that call has returned
    normally; if the inherited configuration raises, forwarding is not
    enabled at all. *)
Theorem forwarding_enabled_after_base_config :
  forall (N : Type) (B : NodeBase N) (p : Params) (n : N),
    (exists b rest,
        trace_of (LinuxRouter.config p) n = mkEvent (SuperConfig p) b :: rest)
    /\ (forall pre b post,
          trace_of (LinuxRouter.config p) n
          = pre ++ mkEvent (Cmd enable_forwarding) b :: post ->
          pre = [mkEvent (SuperConfig p) true])
    /\ (forall e n1,
          Node_config p n = Raised e n1 ->
          LinuxRouter.config p (n, [])
          = Raised e (n1, [mkEvent (SuperConfig p) false]))
    /\ (forall n1,
          Node_config p n = Returned n1 ->
          LinuxRouter.config p (n, [])
          = invoke (Cmd enable_forwarding) (Node_cmd enable_forwarding)
                   (n1, [mkEvent (SuperConfig p) true])).
Proof.
  intros N B p n. rewrite config_trace, config_unfold.
  destruct (Node_config p n) as [n1|e n1].
  - split; [eauto|]. split; [|split].
    + intros pre b post H.
      destruct pre as [|x pre]; [discriminate|].
      inversion H as [[Hx H']]. subst x.
      destruct pre as [|y pre]; [reflexivity|].
      destruct pre; discriminate.
    + discriminate.
    + intros n2 E; inversion E; reflexivity.
  - split; [eauto|]. split; [|split].
    + intros pre b post H.
      destruct pre as [|x pre]; [discriminate|].
      destruct pre; discriminate.
    + intros e' n2 E; inversion E; reflexivity.
    + discriminate.
Qed.

Lemma forwarding_enabled_after_base_config_witness :
  trace_of (LinuxRouter.config rA_params) fresh_node
  = [mkEvent (SuperConfig rA_params) true]
    ++ mkEvent (Cmd enable_forwarding) true :: []
  /\ [mkEvent (SuperConfig rA_params) true]
     = [mkEvent (SuperConfig rA_params) true].
Proof.
  split; [reflexivity|].
  apply (proj1 (proj2 (forwarding_enabled_after_base_config
                         SimNode SimNode_base rA_params fresh_node))
           [mkEvent (SuperConfig rA_params) true] true []).
  reflexivity.
Defined.

(** C4: for every base class on which the forwarding sysctl means what it
    says, a [config] call that returns followed by a [terminate] call that
    returns leaves the forwarding flag disabled, whatever it was before the
    activation; in between it is enabled. *)
Theorem config_then_terminate_disables :
  forall (N : Type) (B : NodeBase N) (fwd : N -> bool)
         (L : ForwardingFlag B fwd) (p : Params)
         (w0 w1 w2 : N * list Event),
    LinuxRouter.config p w0 = Returned w1 ->
    LinuxRouter.terminate w1 = Returned w2 ->
    fwd (fst w1) = true /\ fwd (fst w2) = false
    /\ snd w2 = snd w0 ++ [mkEvent (SuperConfig p) true;
                           mkEvent (Cmd enable_forwarding) true;
                           mkEvent (Cmd disable_forwarding) true;
                           mkEvent SuperTerminate true].
Proof.
  intros N B fwd L p [n0 tr0] [n1 tr1] [n2 tr2] Hc Ht.
  rewrite config_unfold in Hc. rewrite terminate_unfold in Ht.
  destruct (Node_config p n0) as [a|] eqn:Ea; [|discriminate].
  unfold invoke in Hc; simpl in Hc.
  destruct (Node_cmd enable_forwarding a) as [b|] eqn:Eb; [|discriminate].
  inversion Hc; subst b tr1; clear Hc.
  destruct (Node_cmd disable_forwarding n1) as [c|] eqn:Ec; [|discriminate].
  unfold invoke in Ht; simpl in Ht.
  destruct (Node_terminate c) as [d|] eqn:Ed; [|discriminate].
  inversion Ht; subst d tr2; clear Ht. simpl.
  split; [eapply enable_sets; eauto|]. split.
  - erewrite terminate_keeps by eauto. eapply disable_clears; eauto.
  - now rewrite <- !app_assoc.
Qed.

Lemma config_then_terminate_disables_witness :
  LinuxRouter.config rA_params (fresh_node, [])
  = Returned (mkSimNode true true (Some rA_params),
              [mkEvent (SuperConfig rA_params) true;
               mkEvent (Cmd enable_forwarding) true])
  /\ ip_forward (mkSimNode false false (Some rA_params)) = false.
Proof.
  split; [reflexivity|].
  apply (config_then_terminate_disables SimNode SimNode_base ip_forward
           SimNode_forwarding rA_params (fresh_node, [])
           (mkSimNode true true (Some rA_params),
            [mkEvent (SuperConfig rA_params) true;
             mkEvent (Cmd enable_forwarding) true])
           (mkSimNode false false (Some rA_params),
            [mkEvent (SuperConfig rA_params) true;
             mkEvent (Cmd enable_forwarding) true;
             mkEvent (Cmd disable_forwarding) true;
             mkEvent SuperTerminate true])); reflexivity.
Defined.




(** * Properties of the orchestration script *)

(** What [main] does, for every behaviour of the engine: each engine call
    is reached only if the calls before it returned. *)
Lemma main_actions eng :
  actions_of (main eng) =
  [SetLogLevel "info"; NewMininet network true]
  ++ match construct_reply eng with
     | Some _ => []
     | None =>
         [Info (ln "Starting network"); Start]
         ++ match start_reply eng with
            | Some _ => []
            | None =>
                map Info address_map
                ++ [Info (ln "Testing connectivity within each LAN using pingall");
                    PingAll]
                ++ match pingAll_reply eng with
                   | inl _ => []
                   | inr _ => [Info (ln "*** Stopping network"); Stop]
                   end
            end
     end.
Proof.
  destruct eng as [[c|] [s|] [p|lost] [st|]]; reflexivity.
Qed.

Lemma run_sets_no_verbosity eng lvl :
  ~ In (SetLogLevel lvl) (actions_of (run eng)).
Proof.
  destruct eng as [[c|] [s|] [p|lost] [st|]]; cbv - [network];
    intuition discriminate.
Qed.

(** Splitting a concrete list of actions around one of them. *)
Ltac split_actions H pre :=
  repeat (destruct pre as [|? pre];
          [ first [discriminate H | injection H as H; subst]
          | injection H as ? H; subst ]);
  try (destruct pre; discriminate H).

(** C8: the entry point takes no argument; it sets the verbosity, builds
    the topology and hands it to the engine, starts the network, prints the
    address map, runs the all-pairs probe and stops the network.  Whatever
    the engine does, the probe is preceded by the start and by the whole
    address map, and the stop is preceded by the probe and is the last
    action; and whenever the engine's calls return, the stop is reached,
    whatever number of failures the probe reports. *)
Theorem main_sequence :
  (forall lost,
      actions_of (main (engine_ok lost)) = expected_actions
      /\ completed (main (engine_ok lost)) = true)
  /\ (forall eng,
        exists rest,
          actions_of (main eng)
          = SetLogLevel "info" :: NewMininet network true :: rest)
  /\ (forall eng pre post,
        actions_of (main eng) = pre ++ PingAll :: post ->
        pre = actions_before_probe)
  /\ (forall eng pre post,
        actions_of (main eng) = pre ++ Stop :: post ->
        post = []
        /\ pre = actions_before_probe
                 ++ [PingAll; Info (ln "*** Stopping network")])
  /\ (forall eng lost,
        construct_reply eng = None -> start_reply eng = None ->
        pingAll_reply eng = inr lost ->
        actions_of (main eng) = expected_actions).
Proof.
  split; [|split; [|split; [|split]]].
  - intros lost. split; reflexivity.
  - intros eng. rewrite main_actions. simpl. eauto.
  - intros eng pre post. rewrite main_actions.
    destruct eng as [[c|] [s|] [p|lost] [st|]];
      cbn [construct_reply start_reply pingAll_reply app map address_map];
      intros H; split_actions H pre; reflexivity.
  - intros eng pre post. rewrite main_actions.
    destruct eng as [[c|] [s|] [p|lost] [st|]];
      cbn [construct_reply start_reply pingAll_reply app map address_map];
      intros H; split_actions H pre; split; reflexivity.
  - intros eng lost Hc Hs Hp. rewrite main_actions, Hc, Hs, Hp. reflexivity.
Qed.

Lemma main_sequence_witness :
  actions_of (main (engine_ok 15))
  = actions_before_probe
    ++ PingAll :: [Info (ln "*** Stopping network"); Stop]
  /\ actions_before_probe = actions_before_probe.
Proof.
  split; [reflexivity|].
  apply (proj1 (proj2 (proj2 main_sequence)) (engine_ok 15)
           actions_before_probe
           [Info (ln "*** Stopping network"); Stop]).
  reflexivity.
Defined.
(** * Further properties of the router node *)

Section MethodSequences.

Context {N : Type} {B : NodeBase N}.

(** A method call that returns has logged exactly its own events, all of
    them returned. *)
Lemma call_method_events m w w' :
  call_method m w = Returned w' -> snd w' = snd w ++ events_of m.
Proof.
  destruct w as [n tr], m as [p|]; simpl.
  - rewrite config_unfold.
    destruct (Node_config p n) as [n1|]; [|discriminate].
    unfold invoke; simpl.
    destruct (Node_cmd enable_forwarding n1); [|discriminate].
    intros H; inversion H; subst; simpl. now rewrite <- app_assoc.
  - rewrite terminate_unfold.
    destruct (Node_cmd disable_forwarding n) as [n1|]; [|discriminate].
    unfold invoke; simpl.
    destruct (Node_terminate n1); [|discriminate].
    intros H; inversion H; subst; simpl. now rewrite <- app_assoc.
Qed.

Lemma call_method_flag (fwd : N -> bool) (L : ForwardingFlag B fwd) m w w' :
  call_method m w = Returned w' -> fwd (fst w') = is_config m.
Proof.
  destruct w as [n tr], m as [p|]; simpl.
  - rewrite config_unfold.
    destruct (Node_config p n) as [n1|]; [|discriminate].
    unfold invoke; simpl.
    destruct (Node_cmd enable_forwarding n1) as [n2|] eqn:E; [|discriminate].
    intros H; inversion H; subst; simpl. eapply enable_sets; eauto.
  - rewrite terminate_unfold.
    destruct (Node_cmd disable_forwarding n) as [n1|] eqn:E; [|discriminate].
    unfold invoke; simpl.
    destruct (Node_terminate n1) as [n2|] eqn:E2; [|discriminate].
    intros H; inversion H; subst; simpl.
    erewrite terminate_keeps by eauto. eapply disable_clears; eauto.
Qed.

Lemma call_methods_app ms1 ms2 w :
  call_methods (ms1 ++ ms2) w
  = and_then (call_methods ms1) (call_methods ms2) w.
Proof.
  revert w. induction ms1 as [|m rest IH]; intros w; simpl.
  - reflexivity.
  - unfold and_then in *.
    destruct (call_method m w) as [w1|e w1]; [apply IH|reflexivity].
Qed.

End MethodSequences.

(** X1: over any sequence of [config] and [terminate] calls that all
    return, the forwarding flag is decided by the last call alone: enabled
    after a [config], disabled after a [terminate], whatever came before. *)
Theorem last_call_decides_forwarding :
  forall (N : Type) (B : NodeBase N) (fwd : N -> bool)
         (L : ForwardingFlag B fwd) (ms : list Method) (m : Method)
         (w w' : N * list Event),
    call_methods (ms ++ [m]) w = Returned w' ->
    fwd (fst w') = is_config m.
Proof.
  intros N B fwd L ms m w w'. rewrite call_methods_app. unfold and_then.
  destruct (call_methods ms w) as [w1|]; [|discriminate].
  simpl. unfold and_then.
  destruct (call_method m w1) as [w2|] eqn:E; [|discriminate].
  intros H; inversion H; subst. eapply call_method_flag; eauto.
Qed.

Lemma last_call_decides_forwarding_witness :
  call_methods ([DoConfig rA_params; DoConfig rA_params] ++ [DoTerminate])
               (fresh_node, [])
  = Returned (mkSimNode false false (Some rA_params),
              events_of (DoConfig rA_params) ++ events_of (DoConfig rA_params)
              ++ events_of DoTerminate)
  /\ ip_forward (mkSimNode false false (Some rA_params))
     = is_config DoTerminate.
Proof.
  split; [reflexivity|].
  apply (last_call_decides_forwarding SimNode SimNode_base ip_forward
           SimNode_forwarding [DoConfig rA_params; DoConfig rA_params]
           DoTerminate (fresh_node, [])
           (mkSimNode false false (Some rA_params),
            events_of (DoConfig rA_params) ++ events_of (DoConfig rA_params)
            ++ events_of DoTerminate)).
  reflexivity.
Defined.

(** X2: a sequence of method calls that all return leaves a log determined
    by the calls alone, whatever the base class: for each [config] the
    inherited configuration and then one command enabling forwarding, for
    each [terminate] one command disabling forwarding and then the inherited
    teardown, in the order of the calls.  So the commands enabling
    (disabling) forwarding are as many as the [config] ([terminate])
    calls. *)
Theorem returned_calls_log :
  forall (N : Type) (B : NodeBase N) (ms : list Method)
         (w w' : N * list Event),
    call_methods ms w = Returned w' ->
    snd w' = snd w ++ flat_map events_of ms
    /\ List.length (filter (fun e => match call e with
                                    | Cmd c => String.eqb c enable_forwarding
                                    | _ => false
                                    end) (flat_map events_of ms))
       = List.length (filter is_config ms)
    /\ List.length (filter (fun e => match call e with
                                    | Cmd c => String.eqb c disable_forwarding
                                    | _ => false
                                    end) (flat_map events_of ms))
       = List.length (filter (fun m => negb (is_config m)) ms).
Proof.
  intros N B ms. induction ms as [|m rest IH]; intros w w'; simpl.
  - intros H; inversion H; subst. now rewrite app_nil_r.
  - unfold and_then. destruct (call_method m w) as [w1|] eqn:E; [|discriminate].
    intros H. apply IH in H. destruct H as (Hlog & Hen & Hdis).
    apply call_method_events in E. split; [|split].
    + rewrite Hlog, E. now rewrite <- app_assoc.
    + rewrite filter_app, length_app, Hen. destruct m; reflexivity.
    + rewrite filter_app, length_app, Hdis. destruct m; reflexivity.
Qed.

Lemma returned_calls_log_witness :
  call_methods [DoConfig rA_params; DoTerminate] (fresh_node, [])
  = Returned (mkSimNode false false (Some rA_params),
              [mkEvent (SuperConfig rA_params) true;
               mkEvent (Cmd enable_forwarding) true;
               mkEvent (Cmd disable_forwarding) true;
               mkEvent SuperTerminate true])
  /\ [mkEvent (SuperConfig rA_params) true;
      mkEvent (Cmd enable_forwarding) true;
      mkEvent (Cmd disable_forwarding) true;
      mkEvent SuperTerminate true]
     = [] ++ flat_map events_of [DoConfig rA_params; DoTerminate].
Proof.
  split; [reflexivity|].
  apply (proj1 (returned_calls_log SimNode SimNode_base
                  [DoConfig rA_params; DoTerminate] (fresh_node, [])
                  (mkSimNode false false (Some rA_params),
                   [mkEvent (SuperConfig rA_params) true;
                    mkEvent (Cmd enable_forwarding) true;
                    mkEvent (Cmd disable_forwarding) true;
                    mkEvent SuperTerminate true]) eq_refl)).
Defined.
(** * Further properties of [build] *)

Lemma find_ext_in {A} (f g : A -> bool) l :
  (forall x, In x l -> f x = g x) -> find f l = find g l.
Proof.
  induction l as [|x rest IH]; intros H; simpl; [reflexivity|].
  rewrite (H x) by (simpl; auto). destruct (g x); [reflexivity|].
  apply IH. intros y Hy. apply H. simpl; auto.
Qed.

Lemma has_node_added name n o t l :
  has_node name (mkTopo (nodes t ++ [(n, o)]) l)
  = has_node name t || String.eqb n name.
Proof.
  unfold has_node; simpl. rewrite existsb_app; simpl.
  now rewrite orb_false_r.
Qed.

(** The registration of a list of distinct names stops at the first name
    already taken, and otherwise appends them all. *)
Lemma addNodes_outcome ns :
  NoDup (map fst ns) ->
  forall t,
    addNodes ns t
    = match find (fun n => has_node n t) (map fst ns) with
      | Some n => inl (DuplicateNodeError n)
      | None => inr (tt, mkTopo (nodes t ++ ns) (links t))
      end.
Proof.
  induction ns as [|[n o] rest IH]; intros Hnd t; simpl.
  - unfold tret. rewrite app_nil_r. now destruct t.
  - inversion Hnd as [|? ? Hnotin Hrest]; subst.
    unfold tbind, addNode. destruct (has_node n t) eqn:E; [reflexivity|].
    rewrite IH by assumption. simpl.
    rewrite (find_ext_in
               (fun m => has_node m (mkTopo (nodes t ++ [(n, o)]) (links t)))
               (fun m => has_node m t)).
    + destruct (find (fun m => has_node m t) (map fst rest));
        [reflexivity|]. now rewrite <- app_assoc.
    + intros m Hm. rewrite has_node_added.
      destruct (String.eqb_spec n m) as [->|_]; [contradiction|].
      apply orb_false_r.
Qed.

Lemma declared_names_distinct : NoDup (map fst declared_nodes).
Proof.
  simpl. repeat (constructor; [simpl; intuition discriminate|]). constructor.
Qed.

Lemma declared_links_resolved t0 l :
  forallb (link_resolved (mkTopo (nodes t0 ++ declared_nodes) l))
          declared_links = true.
Proof.
  unfold declared_links, link_resolved.
  cbn [forallb node1 node2 addressed_link plain_link].
  repeat rewrite has_node_app_r by reflexivity. reflexivity.
Qed.

Lemma build_outcome t0 :
  NetworkTopo.build t0
  = match find (fun n => has_node n t0) (map fst declared_nodes) with
    | Some n => inl (DuplicateNodeError n)
    | None => inr (tt, mkTopo (nodes t0 ++ declared_nodes)
                              (links t0 ++ declared_links))
    end.
Proof.
  rewrite build_unfold. unfold tbind.
  rewrite addNodes_outcome by apply declared_names_distinct.
  destruct (find (fun n => has_node n t0) (map fst declared_nodes));
    [reflexivity|].
  rewrite addLinks_returns by apply declared_links_resolved.
  reflexivity.
Qed.

(** X3: on any descriptor, [build] fails exactly when one of the thirteen
    names it declares is already registered, and then with
    DuplicateNodeError for the first such name in declaration order;
    otherwise it returns the descriptor extended by the declared nodes and
    links. *)
Theorem build_outcome_by_taken_names :
  forall t0,
    NetworkTopo.build t0
    = match find (fun n => has_node n t0) (map fst declared_nodes) with
      | Some n => inl (DuplicateNodeError n)
      | None => inr (tt, mkTopo (nodes t0 ++ declared_nodes)
                                (links t0 ++ declared_links))
      end
    /\ ((exists t, NetworkTopo.build t0 = inr (tt, t))
        <-> Forall (fun n => has_node n t0 = false)
                   (map fst declared_nodes)).
Proof.
  intros t0. split; [apply build_outcome|].
  rewrite build_outcome.
  destruct (find (fun n => has_node n t0) (map fst declared_nodes))
    as [n|] eqn:E.
  - split.
    + intros [t H]; discriminate.
    + intros H. apply find_some in E. destruct E as [Hin Hn].
      rewrite Forall_forall in H. rewrite (H n Hin) in Hn. discriminate.
  - split; [|eauto]. intros _. apply Forall_forall. intros n Hin.
    pose proof (find_none _ _ E n Hin) as Hn. exact Hn.
Qed.

(** X4: [build] cannot be run twice on one descriptor: after a [build]
    that returned, a second [build] fails with DuplicateNodeError for
    [rA], the first name it declares. *)
Theorem build_not_repeatable :
  forall t0 u t,
    NetworkTopo.build t0 = inr (u, t) ->
    NetworkTopo.build t = inl (DuplicateNodeError "rA").
Proof.
  intros t0 u t H. apply build_returns in H. destruct H as [Hn _].
  rewrite build_outcome.
  assert (E : has_node "rA" t = true).
  { unfold has_node. rewrite Hn, existsb_app.
    replace (existsb (fun p => String.eqb (fst p) "rA") declared_nodes)
      with true by reflexivity.
    apply orb_true_r. }
  cbn [map fst declared_nodes find]. now rewrite E.
Qed.

Lemma build_not_repeatable_witness :
  NetworkTopo.build empty_topo = inr (tt, network)
  /\ NetworkTopo.build network = inl (DuplicateNodeError "rA").
Proof.
  split; [reflexivity|].
  apply (build_not_repeatable empty_topo tt network). reflexivity.
Defined.
(** ** [build] keeps the invariants of the descriptor it extends *)

Section BuildOnValidDescriptor.

Variable t0 : Topo.
Hypothesis t0_resolved : no_dangling t0 = true.
Hypothesis names_free :
  forall n, In n (map fst declared_nodes) -> has_node n t0 = false.

Local Abbreviation t := (extended t0).

Lemma find_app {A} (f : A -> bool) a b :
  find f (a ++ b) = match find f a with
                    | Some x => Some x
                    | None => find f b
                    end.
Proof.
  induction a as [|x rest IH]; simpl; [reflexivity|].
  destruct (f x); [reflexivity|apply IH].
Qed.

Lemma find_existsb {A} (f : A -> bool) l :
  existsb f l = match find f l with Some _ => true | None => false end.
Proof.
  induction l as [|x rest IH]; simpl; [reflexivity|].
  destruct (f x); [reflexivity|apply IH].
Qed.

Lemma flat_map_ext_in {A C} (f g : A -> list C) l :
  (forall x, In x l -> f x = g x) -> flat_map f l = flat_map g l.
Proof.
  induction l as [|x rest IH]; intros H; simpl; [reflexivity|].
  rewrite (H x) by (simpl; auto). f_equal. apply IH.
  intros y Hy. apply H. simpl; auto.
Qed.

Lemma flat_map_nil_in {A C} (f : A -> list C) l :
  (forall x, In x l -> f x = []) -> flat_map f l = [].
Proof.
  induction l as [|x rest IH]; intros H; simpl; [reflexivity|].
  rewrite (H x) by (simpl; auto). simpl. apply IH.
  intros y Hy. apply H. simpl; auto.
Qed.

Lemma has_node_extended n :
  has_node n t = has_node n t0 || has_node n network.
Proof. unfold has_node, extended; simpl. apply existsb_app. Qed.

Lemma node_ip_old n :
  has_node n t0 = true -> node_ip n t = node_ip n t0.
Proof.
  unfold has_node, node_ip, find_node, extended; simpl.
  rewrite find_existsb, find_app.
  destruct (find (fun p => String.eqb (fst p) n) (nodes t0));
    [reflexivity|discriminate].
Qed.

Lemma node_ip_new n :
  has_node n t0 = false -> node_ip n t = node_ip n network.
Proof.
  unfold has_node, node_ip, find_node, extended; simpl.
  rewrite find_existsb, find_app.
  destruct (find (fun p => String.eqb (fst p) n) (nodes t0));
    [discriminate|reflexivity].
Qed.

Lemma old_link_ends l :
  In l (links t0) ->
  has_node (node1 l) t0 = true /\ has_node (node2 l) t0 = true.
Proof.
  intros Hl. unfold no_dangling in t0_resolved.
  rewrite forallb_forall in t0_resolved.
  apply t0_resolved in Hl. now apply andb_true_iff in Hl.
Qed.

Lemma new_link_ends l :
  In l declared_links ->
  has_node (node1 l) t0 = false /\ has_node (node2 l) t0 = false.
Proof.
  intros Hl.
  assert (In (node1 l) (map fst declared_nodes)
          /\ In (node2 l) (map fst declared_nodes)) as [H1 H2].
  { revert l Hl. apply Forall_forall.
    repeat (constructor; [split; simpl; tauto|]). constructor. }
  split; apply names_free; assumption.
Qed.

Lemma endpoint_ip_old n ps :
  has_node n t0 = true -> endpoint_ip t n ps = endpoint_ip t0 n ps.
Proof.
  intros H. unfold endpoint_ip. now rewrite node_ip_old.
Qed.

Lemma endpoint_ip_new n ps :
  has_node n t0 = false -> endpoint_ip t n ps = endpoint_ip network n ps.
Proof.
  intros H. unfold endpoint_ip. now rewrite node_ip_new.
Qed.

Lemma eqb_false_of_has_node a b :
  has_node a t0 = true -> has_node b t0 = false -> String.eqb a b = false.
Proof.
  intros Ha Hb. destruct (String.eqb_spec a b) as [->|]; congruence.
Qed.

(** The segment of a switch the descriptor already held is unchanged. *)
Lemma segment_old sw :
  has_node sw t0 = true -> segment sw t = segment sw t0.
Proof.
  intros Hsw. unfold segment.
  change (links t) with (links t0 ++ declared_links). rewrite flat_map_app.
  rewrite (flat_map_nil_in _ declared_links).
  - rewrite app_nil_r. apply flat_map_ext_in. intros l Hl.
    destruct (old_link_ends l Hl) as [H1 H2].
    now rewrite (endpoint_ip_old _ _ H1), (endpoint_ip_old _ _ H2).
  - intros l Hl. destruct (new_link_ends l Hl) as [H1 H2].
    rewrite String.eqb_sym, (eqb_false_of_has_node sw _ Hsw H1).
    rewrite (String.eqb_sym (node2 l)), (eqb_false_of_has_node sw _ Hsw H2).
    reflexivity.
Qed.

(** The segment of a switch [build] declares is the one it has in the
    topology built from nothing. *)
Lemma segment_new sw :
  has_node sw t0 = false -> segment sw t = segment sw network.
Proof.
  intros Hsw. unfold segment. change (links network) with declared_links.
  change (links t) with (links t0 ++ declared_links). rewrite flat_map_app.
  rewrite (flat_map_nil_in _ (links t0)).
  - rewrite app_nil_l. apply flat_map_ext_in. intros l Hl.
    destruct (new_link_ends l Hl) as [H1 H2].
    now rewrite (endpoint_ip_new _ _ H1), (endpoint_ip_new _ _ H2).
  - intros l Hl. destruct (old_link_ends l Hl) as [H1 H2].
    rewrite (eqb_false_of_has_node _ sw H1 Hsw).
    rewrite (eqb_false_of_has_node _ sw H2 Hsw). reflexivity.
Qed.

Lemma switch_registered sw tp :
  In sw (names_with_role Switch tp) -> has_node sw tp = true.
Proof.
  unfold names_with_role, has_node. rewrite in_map_iff.
  intros (p & <- & Hp). apply filter_In in Hp. destruct Hp as [Hp _].
  apply existsb_exists. exists p. split; [assumption|apply String.eqb_refl].
Qed.

Lemma extended_resolved : no_dangling t = true.
Proof.
  unfold no_dangling. change (links t) with (links t0 ++ declared_links). rewrite forallb_app.
  apply andb_true_iff. split.
  - apply forallb_forall. intros l Hl.
    destruct (old_link_ends l Hl) as [H1 H2].
    unfold link_resolved. now rewrite !has_node_extended, H1, H2.
  - apply declared_links_resolved.
Qed.

Lemma assignment_of_key n i ps x :
  In x (assignment_of n i ps) -> fst (fst x) = n.
Proof.
  unfold assignment_of. destruct i; [|contradiction].
  destruct (lookup_param "ip" ps); [|contradiction].
  intros [<-|[]]. reflexivity.
Qed.

Lemma assignment_node links0 x :
  In x (flat_map (fun l =>
          assignment_of (node1 l) (intfName1 l) (params1 l) ++
          assignment_of (node2 l) (intfName2 l) (params2 l)) links0) ->
  exists l, In l links0
            /\ (fst (fst x) = node1 l \/ fst (fst x) = node2 l).
Proof.
  rewrite in_flat_map. intros (l & Hl & Hx). exists l. split; [assumption|].
  apply in_app_or in Hx.
  destruct Hx as [Hx|Hx]; apply assignment_of_key in Hx; auto.
Qed.

Lemma assigned_once_app a b :
  assigned_once a = true -> assigned_once b = true ->
  (forall x y, In x a -> In y b -> same_intf (fst x) (fst y) = false) ->
  assigned_once (a ++ b) = true.
Proof.
  induction a as [|[k v] rest IH]; intros Ha Hb Hab; simpl; [assumption|].
  simpl in Ha. apply andb_true_iff in Ha. destruct Ha as [Hk Hrest].
  apply andb_true_iff. split.
  - rewrite existsb_app, negb_orb. apply andb_true_iff. split; [assumption|].
    apply negb_true_iff. apply not_true_iff_false. intros E.
    apply existsb_exists in E. destruct E as (y & Hy & E).
    pose proof (Hab (k, v) y (or_introl eq_refl) Hy) as F. simpl in F.
    congruence.
  - apply IH; auto. intros x y Hx Hy. apply Hab; simpl; auto.
Qed.

Lemma extended_assigned_once :
  no_duplicate_assignment t0 = true -> no_duplicate_assignment t = true.
Proof.
  intros H0. unfold no_duplicate_assignment, intf_assignments.
  change (links t) with (links t0 ++ declared_links).
  rewrite flat_map_app. apply assigned_once_app.
  - exact H0.
  - reflexivity.
  - intros x y Hx Hy.
    apply assignment_node in Hx. destruct Hx as (l & Hl & Hx).
    apply assignment_node in Hy. destruct Hy as (l' & Hl' & Hy).
    destruct (old_link_ends l Hl) as [H1 H2].
    destruct (new_link_ends l' Hl') as [H1' H2'].
    unfold same_intf.
    assert (E : String.eqb (fst (fst x)) (fst (fst y)) = false).
    { destruct Hx as [-> | ->], Hy as [-> | ->];
        apply eqb_false_of_has_node; assumption. }
    now rewrite E.
Qed.

Lemma extended_consistent :
  subnet_consistent t0 = true -> subnet_consistent t = true.
Proof.
  intros H0. unfold subnet_consistent.
  assert (E : names_with_role Switch t
              = names_with_role Switch t0 ++ names_with_role Switch network).
  { unfold names_with_role, extended; simpl.
    now rewrite filter_app, map_app. }
  rewrite E, forallb_app. apply andb_true_iff. split.
  - apply forallb_forall. intros sw Hsw.
    unfold subnet_consistent in H0. rewrite forallb_forall in H0.
    specialize (H0 sw Hsw). apply switch_registered in Hsw.
    unfold segment_consistent, segment_subnets in *.
    now rewrite (segment_old sw Hsw).
  - assert (Hall : Forall (fun sw => has_node sw t0 = false
                                    /\ segment_consistent network sw = true)
                          (names_with_role Switch network)).
    { repeat (constructor;
              [split; [apply names_free; simpl; tauto|reflexivity]|]).
      constructor. }
    rewrite Forall_forall in Hall.
    apply forallb_forall. intros sw Hsw.
    destruct (Hall sw Hsw) as [Hfree Hnet].
    unfold segment_consistent, segment_subnets in *.
    now rewrite (segment_new sw Hfree).
Qed.

End BuildOnValidDescriptor.

(** X5: [build] keeps the invariants of the descriptor it is run on: if
    the descriptor has no dangling link endpoint, no interface assigned
    twice and one subnet per segment, and [build] returns, the extended
    descriptor has the three properties too; the segments it already held
    are unchanged. *)
Theorem build_preserves_validity :
  forall t0 u t,
    valid_topology t0 = true ->
    NetworkTopo.build t0 = inr (u, t) ->
    valid_topology t = true
    /\ forall sw, has_node sw t0 = true -> segment sw t = segment sw t0.
Proof.
  intros t0 u t Hv Hb.
  unfold valid_topology in Hv. apply andb_true_iff in Hv.
  destruct Hv as [Hv Hc]. apply andb_true_iff in Hv. destruct Hv as [Hd Ha].
  rewrite build_outcome in Hb.
  destruct (find (fun n => has_node n t0) (map fst declared_nodes)) eqn:E;
    [discriminate|].
  inversion Hb; subst; clear Hb. fold (extended t0).
  assert (Hfree : forall n, In n (map fst declared_nodes) ->
                            has_node n t0 = false).
  { intros n Hn. exact (find_none _ _ E n Hn). }
  split.
  - unfold valid_topology.
    rewrite (extended_resolved t0 Hd).
    rewrite (extended_assigned_once t0 Hd Hfree Ha).
    now rewrite (extended_consistent t0 Hd Hfree Hc).
  - intros sw Hsw. apply (segment_old t0 Hd Hfree sw Hsw).
Qed.

Lemma build_preserves_validity_witness :
  valid_topology consistent_draft = true
  /\ (valid_topology
        (mkTopo (nodes consistent_draft ++ declared_nodes)
                (links consistent_draft ++ declared_links)) = true
      /\ forall sw, has_node sw consistent_draft = true ->
           segment sw (mkTopo (nodes consistent_draft ++ declared_nodes)
                              (links consistent_draft ++ declared_links))
           = segment sw consistent_draft).
Proof.
  split; [reflexivity|].
  apply (build_preserves_validity consistent_draft tt
           (mkTopo (nodes consistent_draft ++ declared_nodes)
                   (links consistent_draft ++ declared_links)));
    reflexivity.
Defined.
(** * Further properties of the orchestration script *)

(** X6: [run] handles no exception.  The entry point completes exactly
    when the four engine calls return; otherwise it is left by the
    exception of the first engine call that raises, unchanged, and never by
    an error of the topology.  The network is stopped only if the
    constructor, [start] and [pingAll] all returned: an exception on the
    way leaves the network running. *)
Theorem main_propagates_engine_errors :
  forall eng,
    raised_by (main eng)
    = match construct_reply eng, start_reply eng,
            pingAll_reply eng, stop_reply eng with
      | Some msg, _, _, _ => Some (EngineExn msg)
      | None, Some msg, _, _ => Some (EngineExn msg)
      | None, None, inl msg, _ => Some (EngineExn msg)
      | None, None, inr _, Some msg => Some (EngineExn msg)
      | None, None, inr _, None => None
      end
    /\ completed (main eng)
       = match raised_by (main eng) with Some _ => false | None => true end
    /\ existsb is_Stop (actions_of (main eng))
       = match construct_reply eng, start_reply eng, pingAll_reply eng with
         | None, None, inr _ => true
         | _, _, _ => false
         end.
Proof.
  intros [[c|] [s|] [p|lost] [st|]]; repeat split.
Qed.

(** X7: the verbosity is set by the [__main__] block and not by [run]:
    [run] never sets the log level, and the entry point does what [run]
    does after one [setLogLevel('info')]. *)
Theorem verbosity_set_outside_run :
  forall eng,
    existsb is_SetLogLevel (actions_of (run eng)) = false
    /\ actions_of (main eng) = SetLogLevel "info" :: actions_of (run eng)
    /\ raised_by (main eng) = raised_by (run eng).
Proof.
  intros [[c|] [s|] [p|lost] [st|]]; repeat split.
Qed.

(** X8: the address map [run] prints is the one the topology [build]
    declares calls for: each LAN with the subnet of its segment and the
    address of its router on it, each host and each router with the address
    it is declared with. *)
Theorem address_map_matches_topology :
  address_map_of network = address_map
  /\ Forall (fun h =>
       exists a, node_ip h network = Some a
                 /\ In (ln (concat_strings ["  "; h; ": "; IPv4.host_part a]))
                       address_map)
       (names_with_role Host network).
Proof.
  split; [reflexivity|].
  repeat (constructor;
          [eexists; split; [reflexivity|]; simpl; tauto|]).
  constructor.
Qed.

(** * Further properties of the declared topology *)

Lemma connected_trans t a b c :
  connected t a b -> connected t b c -> connected t a c.
Proof.
  induction 1 as [|a b d Hab Hbd IH]; intros Hc; [assumption|].
  eapply connected_step; eauto.
Qed.

Lemma adjacent_sym t a b : adjacent t a b -> adjacent t b a.
Proof. intros (l & Hl & H). exists l. split; [assumption|tauto]. Qed.

Lemma connected_sym t a b : connected t a b -> connected t b a.
Proof.
  induction 1 as [a|a b c Hab Hbc IH]; [constructor|].
  eapply connected_trans; [exact IH|].
  eapply connected_step; [apply adjacent_sym; exact Hab|constructor].
Qed.

Lemma link_adjacent t l :
  In l (links t) -> adjacent t (node1 l) (node2 l).
Proof. intros H. exists l. split; [assumption|left; split; reflexivity]. Qed.

(** Every declared node is joined to the backbone switch. *)
Lemma joined_to_backbone :
  Forall (fun a => connected network a "s4") (map fst (nodes network)).
Proof.
  assert (L : forall l, In l declared_links ->
                        connected network (node1 l) (node2 l)).
  { intros l Hl. eapply connected_step; [|constructor].
    apply link_adjacent. exact Hl. }
  assert (rA : connected network "rA" "s4").
  { apply connected_sym.
    apply (L (addressed_link "s4" "rA" "rA-eth1" "20.10.100.1/24")).
    simpl; tauto. }
  assert (rB : connected network "rB" "s4").
  { apply connected_sym.
    apply (L (addressed_link "s4" "rB" "rB-eth1" "20.10.100.2/24")).
    simpl; tauto. }
  assert (rC : connected network "rC" "s4").
  { apply connected_sym.
    apply (L (addressed_link "s4" "rC" "rC-eth1" "20.10.100.3/24")).
    simpl; tauto. }
  assert (s1 : connected network "s1" "s4").
  { eapply connected_trans; [|exact rA].
    apply (L (addressed_link "s1" "rA" "rA-eth0" "20.10.172.129/26")).
    simpl; tauto. }
  assert (s2 : connected network "s2" "s4").
  { eapply connected_trans; [|exact rB].
    apply (L (addressed_link "s2" "rB" "rB-eth0" "20.10.172.1/25")).
    simpl; tauto. }
  assert (s3 : connected network "s3" "s4").
  { eapply connected_trans; [|exact rC].
    apply (L (addressed_link "s3" "rC" "rC-eth0" "20.10.172.193/27")).
    simpl; tauto. }
  assert (H : forall h sw, In (plain_link h sw) declared_links ->
                           connected network sw "s4" ->
                           connected network h "s4").
  { intros h sw Hl Hsw. eapply connected_trans; [|exact Hsw].
    apply (L _ Hl). }
  repeat constructor; try assumption.
  - apply (H "hA1" "s1"); [simpl; tauto|assumption].
  - apply (H "hA2" "s1"); [simpl; tauto|assumption].
  - apply (H "hB1" "s2"); [simpl; tauto|assumption].
  - apply (H "hB2" "s2"); [simpl; tauto|assumption].
  - apply (H "hC1" "s3"); [simpl; tauto|assumption].
  - apply (H "hC2" "s3"); [simpl; tauto|assumption].
Qed.

(** X9: the declared topology is one connected network without a spare
    link: any two declared nodes are joined by a path of links, and there
    is exactly one link fewer than there are nodes. *)
Theorem topology_connected :
  Forall (fun a =>
    Forall (fun b => connected network a b) (map fst (nodes network)))
    (map fst (nodes network))
  /\ S (List.length (links network)) = List.length (nodes network).
Proof.
  split; [|reflexivity].
  pose proof joined_to_backbone as J. rewrite Forall_forall in J.
  apply Forall_forall. intros a Ha. apply Forall_forall. intros b Hb.
  eapply connected_trans; [apply J; exact Ha|].
  apply connected_sym. apply J. exact Hb.
Qed.
(** ** The declared subnets *)

Lemma declared_subnets_network :
  declared_subnets network
  = [IPv4.Cidr 336243840 26; IPv4.Cidr 336243712 25;
     IPv4.Cidr 336243904 27; IPv4.Cidr 336225280 24].
Proof. reflexivity. Qed.

Ltac subnet_range H :=
  apply in_subnet_range in H;
  [ cbn [IPv4.addr IPv4.plen] in H
  | cbn [IPv4.plen]; lia
  | assumption
  | reflexivity ].

(** X10: the subnets of the four declared segments do not overlap: no
    32-bit address lies in two of them, so the segment an address belongs
    to is unambiguous. *)
Theorem declared_subnets_disjoint :
  forall a n m,
    (0 <= a < 2 ^ 32)%Z ->
    In n (declared_subnets network) -> In m (declared_subnets network) ->
    IPv4.in_subnet a n = true -> IPv4.in_subnet a m = true ->
    n = m.
Proof.
  intros a n m Ha Hn Hm Hin Him.
  rewrite declared_subnets_network in Hn, Hm.
  destruct Hn as [<-|[<-|[<-|[<-|[]]]]];
    destruct Hm as [<-|[<-|[<-|[<-|[]]]]];
    try reflexivity; exfalso;
    subnet_range Hin; subnet_range Him;
    change (2 ^ (32 - 24))%Z with 256%Z in *;
    change (2 ^ (32 - 25))%Z with 128%Z in *;
    change (2 ^ (32 - 26))%Z with 64%Z in *;
    change (2 ^ (32 - 27))%Z with 32%Z in *; lia.
Qed.

Lemma declared_subnets_disjoint_witness :
  IPv4.in_subnet 336243842 (IPv4.Cidr 336243840 26) = true
  /\ IPv4.Cidr 336243840 26 = IPv4.Cidr 336243840 26.
Proof.
  split; [reflexivity|].
  apply (declared_subnets_disjoint 336243842
           (IPv4.Cidr 336243840 26) (IPv4.Cidr 336243840 26));
    [lia|simpl; tauto|simpl; tauto|reflexivity|reflexivity].
Defined.

(** X11: as declared, the address of a host lies on a subnet directly
    connected to another host, and on one directly connected to that host's
    gateway router, exactly when the two hosts are attached to the same LAN
    switch; and no router is declared with a default route.  So [build]
    declares nothing that takes a router to a LAN other than its own. *)
Theorem direct_delivery_within_lan_only :
  Forall (fun h =>
    Forall (fun h' =>
      delivers_directly network h h' = same_lan network h h'
      /\ gateway_delivers network h h' = same_lan network h h')
      (names_with_role Host network))
    (names_with_role Host network)
  /\ Forall (fun r => node_defaultRoute r network = None)
            (names_with_role Router network)
  /\ Forall (fun h =>
       exists r g, gateway_router h network = Some r
                   /\ has_role Router network r = true
                   /\ node_defaultRoute h network
                      = Some (String.append "via " g)
                   /\ In (r, g) (flat_map (fun sw =>
                                   realised_members sw network)
                                   (lan_switches network)))
       (names_with_role Host network).
Proof.
  split; [|split].
  - repeat (constructor;
            [repeat (constructor; [split; vm_compute; reflexivity|]);
             constructor|]).
    constructor.
  - repeat constructor.
  - repeat (constructor;
            [do 2 eexists; split; [reflexivity|]; split; [reflexivity|];
             split; [reflexivity|]; vm_compute; tauto|]).
    constructor.
Qed.

(** X12: every declared interface address is an assignable host address
    of its subnet, neither the subnet's first address nor its last; and the
    three LAN prefixes leave room for 62, 126 and 30 hosts, the numbers the
    script's header gives. *)
Theorem interfaces_are_assignable :
  Forall (fun e => exists a, snd e = Some a /\ assignable a = true)
         (interface_ips network)
  /\ map (fun sw => (subnet_text sw network,
                     match segment_subnets sw network with
                     | Some n :: _ => IPv4.usable_hosts (IPv4.plen n)
                     | _ => 0%Z
                     end,
                     List.length (segment sw network)))
         (lan_switches network)
     = [ ("20.10.172.128/26", 62%Z, 3%nat);
         ("20.10.172.0/25", 126%Z, 3%nat);
         ("20.10.172.192/27", 30%Z, 3%nat) ].
Proof.
  split; [|reflexivity].
  repeat (constructor; [eexists; split; reflexivity|]). constructor.
Qed.
